(** * The cfn-lint editor client: configuration synchroniser and preview panels

    A shallow embedding of [client/src/extension.ts].  The module-level
    mutable state of the extension ([previews]), the editor state it reads
    and writes (settings, webview panels, messages), the file system and the
    channel to the language server are gathered in one record, [World]; the
    functions of the source become computations over it, in a small
    state-and-exception monad. *)

From stdpp Require Import base option list strings gmap fin_maps.
From Stdlib Require Import ZArith Lia.

Local Open Scope string_scope.
Local Open Scope Z_scope.
Local Open Scope list_scope.

(** ** Values held by the settings this file reads *)

(** The four settings of the source hold booleans or arrays of strings, and
    a settings file may spell any of them [null].  A key that is absent is
    JavaScript's [undefined], which is [None] of [option value] below. *)
Inductive value : Type :=
  | VNull
  | VBool (b : bool)
  | VTags (tags : list string).

#[global] Instance value_eq_dec : EqDecision value.
Proof. solve_decision. Defined.

(** [if (v)]: [undefined], [null] and [false] are falsy, an array is truthy. *)
Definition truthy (v : option value) : bool :=
  match v with
  | Some (VBool b) => b
  | Some (VTags _) => true
  | Some VNull | None => false
  end.

(** [v === null] *)
Definition is_null (v : option value) : bool :=
  match v with Some VNull => true | _ => false end.

(** [v === false] *)
Definition is_false (v : option value) : bool :=
  match v with Some (VBool false) => true | _ => false end.

(** ** The tag merge of [activate] *)

Definition cloudFormationTags : list string :=
  [ "!And"; "!And sequence"; "!If"; "!If sequence"; "!Not"; "!Not sequence";
    "!Equals"; "!Equals sequence"; "!Or"; "!Or sequence"; "!FindInMap";
    "!FindInMap sequence"; "!Base64"; "!Join"; "!Join sequence"; "!Cidr";
    "!Ref"; "!Sub"; "!Sub sequence"; "!GetAtt"; "!GetAZs"; "!ImportValue";
    "!ImportValue sequence"; "!Select"; "!Select sequence"; "!Split";
    "!Split sequence" ].

(** [Array.prototype.indexOf]: the index of the first element equal to
    [item], or [-1]. *)
Fixpoint indexOf (l : list string) (item : string) : Z :=
  match l with
  | [] => -1
  | x :: l' =>
      if String.eqb x item then 0
      else let i := indexOf l' item in if i <? 0 then -1 else i + 1
  end.

(** [currentTags.concat(cloudFormationTags.filter((item) =>
    currentTags.indexOf(item) < 0))], with the fixed list as a parameter. *)
Definition mergeTags (fixed currentTags : list string) : list string :=
  currentTags ++ filter (λ item, bool_decide (indexOf currentTags item < 0)) fixed.

Definition updateTags (currentTags : list string) : list string :=
  mergeTags cloudFormationTags currentTags.

(** Number of occurrences of a tag in a list. *)
Definition occurrences (x : string) (l : list string) : nat :=
  length (filter (λ y, y = x) l).

(** ** The editor's [Uri]

    [Uri] belongs to the editor's API, not to this repository: the embedding
    is parametric in it.  [Uri_parse] is [Uri.parse], [Uri_file] is
    [Uri.file], [Uri_toString u] is [u.toString()] and [Uri_fsPath u] is
    [u.fsPath]. *)
Class UriApi : Type := {
  Uri : Type;
  Uri_parse : string → Uri;
  Uri_file : string → Uri;
  Uri_toString : Uri → string;
  Uri_fsPath : Uri → string;
}.

(** The editor's [Uri] on plain [file://] URIs with an absolute POSIX path
    and no character that needs escaping, which is all the closed examples
    below use: a [Uri] is its path, [Uri.parse] drops the scheme and the
    empty authority, [toString] puts them back and [fsPath] is the path. *)
Definition fileUri : UriApi :=
  {| Uri := string;
     Uri_parse := λ s,
       if String.prefix "file://" s
       then String.substring 7%nat (String.length s - 7)%nat s
       else s;
     Uri_file := λ path, path;
     Uri_toString := λ path, "file://" +:+ path;
     Uri_fsPath := λ path, path |}.

(** ** Settings *)

Inductive ConfigurationTarget : Type := Global | Workspace | WorkspaceFolder.

(** The layers of the editor's settings, least specific first. *)
Record Configuration : Type := mkConfiguration {
  cfgDefault : gmap string value;
  cfgGlobal : gmap string value;
  cfgWorkspace : gmap string value;
  cfgWorkspaceFolder : gmap string value;
}.

(** What [inspect(key)] returns: the value of the key in each layer,
    [undefined] where the layer does not set it. *)
Record Inspect : Type := mkInspect {
  defaultValue : option value;
  globalValue : option value;
  workspaceValue : option value;
  workspaceFolderValue : option value;
}.

Definition config_inspect (key : string) (c : Configuration) : Inspect :=
  {| defaultValue := cfgDefault c !! key;
     globalValue := cfgGlobal c !! key;
     workspaceValue := cfgWorkspace c !! key;
     workspaceFolderValue := cfgWorkspaceFolder c !! key |}.

(** [get(key)]: the value of the most specific layer that sets the key. *)
Definition config_get (key : string) (c : Configuration) : option value :=
  match cfgWorkspaceFolder c !! key with
  | Some v => Some v
  | None =>
      match cfgWorkspace c !! key with
      | Some v => Some v
      | None =>
          match cfgGlobal c !! key with
          | Some v => Some v
          | None => cfgDefault c !! key
          end
      end
  end.

(** [update(key, v, target)] writes the key in the layer of [target]. *)
Definition config_update (key : string) (v : value) (t : ConfigurationTarget)
    (c : Configuration) : Configuration :=
  match t with
  | Global =>
      mkConfiguration (cfgDefault c) (<[key:=v]> (cfgGlobal c))
        (cfgWorkspace c) (cfgWorkspaceFolder c)
  | Workspace =>
      mkConfiguration (cfgDefault c) (cfgGlobal c)
        (<[key:=v]> (cfgWorkspace c)) (cfgWorkspaceFolder c)
  | WorkspaceFolder =>
      mkConfiguration (cfgDefault c) (cfgGlobal c)
        (cfgWorkspace c) (<[key:=v]> (cfgWorkspaceFolder c))
  end.

(** ** Strings of the preview *)

Definition dq : string := String (Ascii.ascii_of_nat 34) EmptyString.
Definition nl : string := String (Ascii.ascii_of_nat 10) EmptyString.
Definition tab : string := String (Ascii.ascii_of_nat 9) EmptyString.

Definition concat_strings (l : list string) : string :=
  foldr String.append EmptyString l.

(** [s.slice(0, -n)]: [s] without its last [n] characters. *)
Definition slice_0_neg (n : nat) (s : string) : string :=
  String.substring 0%nat (String.length s - n)%nat s.

Definition getPreviewContent (content : string) : string :=
  let multilineString := "`" +:+ content +:+ "`" in
  concat_strings
    [ nl;
      tab; "<!DOCTYPE html>"; nl;
      tab; "<body>"; nl;
      tab; tab; "<script src="; dq;
        "https://unpkg.com/d3@5.16.0/dist/d3.min.js"; dq; "></script>"; nl;
      tab; tab; "<script src="; dq;
        "https://unpkg.com/@hpcc-js/wasm@0.3.11/dist/index.min.js"; dq;
        "></script>"; nl;
      tab; tab; "<script src="; dq;
        "https://unpkg.com/d3-graphviz@3.0.5/build/d3-graphviz.min.js"; dq;
        "></script>"; nl;
      tab; tab; "<div id="; dq; "graph"; dq; " style="; dq;
        "text-align: center;"; dq; "></div>"; nl;
      tab; tab; "<script>"; nl;
      tab; tab; tab; "d3.select("; dq; "#graph"; dq; ")"; nl;
      tab; tab; tab; ".graphviz()"; nl;
      tab; tab; tab; ".renderDot("; multilineString; ");"; nl;
      tab; tab; "</script>"; nl;
      tab; "</body>"; nl ].

Definition previewErrorMessage : string :=
  "Error previewing graph. Please run `pip3 install cfn-lint pydot --upgrade`".

Definition validationQuestion : string :=
  "The installed Red Hat YAML extension is also configured to validate YAML templates. This may result in duplicate lint errors with cfn-lint. Disabling the YAML extensions validation will disable it completely.  Would you like to only use cfn-lint to lint CloudFormation templates?".

(** ** The world of the extension *)

Inductive Exn : Type :=
  | TypeError (what : string)      (* a property read on [undefined] or [null] *)
  | ENOENT (path : string)         (* a file-system call on a missing file *)
  | WebviewDisposed.               (* a write to a panel that is closed *)

Inductive Result (A : Type) : Type :=
  | Ok (a : A)
  | Throw (e : Exn).
Arguments Ok {A} a.
Arguments Throw {A} e.

Section Extension.
Context `{uriApi : UriApi}.

(** The variables captured by the listener that [reloadSidePreview]
    registers with [onDidDispose]. *)
Record DisposeListener : Type := mkListener {
  lst_previewKey : string;
  lst_dotFile : string;
  lst_uri : Uri;
}.

Record WebviewPanel : Type := mkPanel {
  viewType : string;
  title : string;
  enableScripts : bool;
  html : string;
  onDidDispose : list DisposeListener;
}.

(** A notification's parameter: the source sends a string with
    [cfn/requestPreview] and the [Uri] object with [cfn/previewClosed]. *)
Inductive Payload : Type :=
  | PString (s : string)
  | PUri (u : Uri).

Record World : Type := mkWorld {
  (** the editor's settings, and the [update] calls made on them *)
  settings : Configuration;
  updates : list (string * value * ConfigurationTarget);
  (** [showInformationMessage] and [showErrorMessage] calls *)
  informationMessages : list (string * list string);
  errorMessages : list string;
  (** [let previews: { [index: string]: WebviewPanel } = {}]: the registry,
      holding references into the editor's open panels *)
  previews : gmap string nat;
  panels : gmap nat WebviewPanel;
  nextPanel : nat;
  (** the files on disk, by path *)
  files : gmap string string;
  (** notifications sent to the server, oldest first *)
  sent : list (string * Payload);
  (** calls into collaborators that are not modelled further *)
  externalCalls : list string;
}.

Definition set_settings (f : Configuration → Configuration) (w : World) : World :=
  mkWorld (f (settings w)) (updates w) (informationMessages w) (errorMessages w)
    (previews w) (panels w) (nextPanel w) (files w) (sent w) (externalCalls w).
Definition set_updates f (w : World) : World :=
  mkWorld (settings w) (f (updates w)) (informationMessages w) (errorMessages w)
    (previews w) (panels w) (nextPanel w) (files w) (sent w) (externalCalls w).
Definition set_informationMessages f (w : World) : World :=
  mkWorld (settings w) (updates w) (f (informationMessages w)) (errorMessages w)
    (previews w) (panels w) (nextPanel w) (files w) (sent w) (externalCalls w).
Definition set_errorMessages f (w : World) : World :=
  mkWorld (settings w) (updates w) (informationMessages w) (f (errorMessages w))
    (previews w) (panels w) (nextPanel w) (files w) (sent w) (externalCalls w).
Definition set_previews f (w : World) : World :=
  mkWorld (settings w) (updates w) (informationMessages w) (errorMessages w)
    (f (previews w)) (panels w) (nextPanel w) (files w) (sent w) (externalCalls w).
Definition set_panels f (w : World) : World :=
  mkWorld (settings w) (updates w) (informationMessages w) (errorMessages w)
    (previews w) (f (panels w)) (nextPanel w) (files w) (sent w) (externalCalls w).
Definition set_nextPanel f (w : World) : World :=
  mkWorld (settings w) (updates w) (informationMessages w) (errorMessages w)
    (previews w) (panels w) (f (nextPanel w)) (files w) (sent w) (externalCalls w).
Definition set_files f (w : World) : World :=
  mkWorld (settings w) (updates w) (informationMessages w) (errorMessages w)
    (previews w) (panels w) (nextPanel w) (f (files w)) (sent w) (externalCalls w).
Definition set_sent f (w : World) : World :=
  mkWorld (settings w) (updates w) (informationMessages w) (errorMessages w)
    (previews w) (panels w) (nextPanel w) (files w) (f (sent w)) (externalCalls w).
Definition set_externalCalls f (w : World) : World :=
  mkWorld (settings w) (updates w) (informationMessages w) (errorMessages w)
    (previews w) (panels w) (nextPanel w) (files w) (sent w) (f (externalCalls w)).

(** *** Computations: state, and exceptions that keep the state *)

Definition M (A : Type) : Type := World → Result A * World.

Definition ret {A} (a : A) : M A := λ w, (Ok a, w).
Definition throw {A} (e : Exn) : M A := λ w, (Throw e, w).
Definition bind {A B} (m : M A) (k : A → M B) : M B :=
  λ w, match m w with
       | (Ok a, w') => k a w'
       | (Throw e, w') => (Throw e, w')
       end.
Definition gets {A} (f : World → A) : M A := λ w, (Ok (f w), w).
Definition modify (f : World → World) : M unit := λ w, (Ok tt, f w).

#[local] Instance M_ret : MRet M := @ret.
#[local] Instance M_bind : MBind M := λ A B k m, bind m k.

(** The world a computation leaves, whether it returned or threw. *)
Definition exec {A} (m : M A) (w : World) : World := snd (m w).
Definition outcome {A} (m : M A) (w : World) : Result A := fst (m w).

(** *** The editor and Node calls the source makes *)

(** [workspace.getConfiguration().get(key)] *)
Definition getConfiguration_get (key : string) : M (option value) :=
  gets (λ w, config_get key (settings w)).

(** [workspace.getConfiguration().inspect(key)] *)
Definition getConfiguration_inspect (key : string) : M Inspect :=
  gets (λ w, config_inspect key (settings w)).

(** [workspace.getConfiguration().update(key, v, target)] *)
Definition getConfiguration_update (key : string) (v : value)
    (t : ConfigurationTarget) : M unit :=
  modify (λ w, set_updates (λ l, l ++ [(key, v, t)])
                 (set_settings (config_update key v t) w)).

(** [await window.showInformationMessage(msg, ...items)]: the prompt is
    shown, and the user's [answer] comes back: the item picked, or
    [undefined] when the prompt is dismissed. *)
Definition showInformationMessage (msg : string) (items : list string)
    (answer : option string) : M (option string) :=
  modify (set_informationMessages (λ l, l ++ [(msg, items)]));; mret answer.

(** [window.showErrorMessage(msg)] *)
Definition showErrorMessage (msg : string) : M unit :=
  modify (set_errorMessages (λ l, l ++ [msg])).

(** [fs.existsSync(path)] *)
Definition existsSync (path : string) : M bool :=
  gets (λ w, bool_decide (is_Some (files w !! path))).

(** [fs.readFileSync(path, 'utf8')] *)
Definition readFileSync (path : string) : M string :=
  λ w, match files w !! path with
       | Some content => (Ok content, w)
       | None => (Throw (ENOENT path), w)
       end.

(** [fs.unlinkSync(path)] *)
Definition unlinkSync (path : string) : M unit :=
  λ w, match files w !! path with
       | Some _ => (Ok tt, set_files (delete path) w)
       | None => (Throw (ENOENT path), w)
       end.

(** [languageClient.sendNotification(method, param)] *)
Definition sendNotification (method : string) (param : Payload) : M unit :=
  modify (set_sent (λ l, l ++ [(method, param)])).

(** A call into a collaborator whose code is elsewhere. *)
Definition call (name : string) : M unit :=
  modify (set_externalCalls (λ l, l ++ [name])).

(** [vscode.window.createWebviewPanel(viewType, title, ViewColumn.Two,
    { enableScripts })]: a new open panel, with no content and no
    listener yet. *)
Definition createWebviewPanel (vt ttl : string) (scripts : bool) : M nat :=
  λ w, let p := nextPanel w in
       (Ok p,
        set_nextPanel S
          (set_panels (insert p (mkPanel vt ttl scripts EmptyString [])) w)).

(** [panel.onDidDispose(listener)] *)
Definition panel_onDidDispose (p : nat) (l : DisposeListener) : M unit :=
  modify (set_panels (alter (λ pan,
    mkPanel (viewType pan) (title pan) (enableScripts pan) (html pan)
      (onDidDispose pan ++ [l])) p)).

(** [panel.webview.html = h]; the editor refuses it on a closed panel. *)
Definition panel_set_html (p : nat) (h : string) : M unit :=
  λ w, match panels w !! p with
       | Some pan =>
           (Ok tt,
            set_panels (insert p
              (mkPanel (viewType pan) (title pan) (enableScripts pan) h
                 (onDidDispose pan))) w)
       | None => (Throw WebviewDisposed, w)
       end.

(** [previews[key]], about to be dereferenced: a [TypeError] when the
    registry has no entry under [key]. *)
Definition previews_deref (key : string) : M nat :=
  λ w, match previews w !! key with
       | Some p => (Ok p, w)
       | None => (Throw (TypeError "previews[key] is undefined"), w)
       end.

(** *** The functions of [extension.ts] *)

(** The listener of lines 143-148, with the variables it captured. *)
Definition previewDisposed (l : DisposeListener) : M unit :=
  modify (set_previews (delete (lst_previewKey l)));;
  unlinkSync (lst_dotFile l);;
  sendNotification "cfn/previewClosed" (PUri (lst_uri l)).

Definition reloadSidePreview (file : string) : M unit :=
  let uri := Uri_parse file in
  let previewKey := Uri_toString uri in
  let dotFile := Uri_fsPath uri +:+ ".dot" in
  found ← existsSync dotFile;
  if negb found then
    showErrorMessage previewErrorMessage
  else
    content ← readFileSync dotFile;
    registered ← gets (λ w, previews w !! previewKey);
    (match registered with
     | None =>
         p ← createWebviewPanel "cfnLintPreview"
               ("Template: " +:+ slice_0_neg 4 dotFile) true;
         modify (set_previews (insert previewKey p));;
         q ← previews_deref previewKey;
         panel_onDidDispose q (mkListener previewKey dotFile uri)
     | Some _ => mret tt
     end);;
    panel ← previews_deref previewKey;
    panel_set_html panel (getPreviewContent content).

(** [panel.dispose()], and equally the user closing the panel: the panel
    leaves the editor and its listeners run, once.  A closed panel is left
    alone.  The editor's event emitter catches what a listener throws and
    goes on, so nothing propagates to the caller; what the listener did
    before it threw stays done. *)
Definition fire (ls : list DisposeListener) (w : World) : World :=
  foldl (λ w' l, exec (previewDisposed l) w') w ls.

Definition dispose (p : nat) : M unit :=
  λ w, match panels w !! p with
       | Some pan => (Ok tt, fire (onDidDispose pan) (set_panels (delete p) w))
       | None => (Ok tt, w)
       end.

(** The handler of [cfn/previewIsAvailable] (lines 101-103). *)
Definition onPreviewIsAvailable (uri : string) : M unit :=
  reloadSidePreview uri.

(** The handler of [cfn/fileclosed] (lines 104-107):
    [previews[uri].dispose()]. *)
Definition onFileClosed (uri : string) : M unit :=
  p ← previews_deref uri;
  dispose p.

(** The command [extension.sidePreview] (lines 109-113);
    [activeFileName] is [window.activeTextEditor.document.fileName], or
    [None] when no editor is active. *)
Definition sidePreview (activeFileName : option string) : M unit :=
  match activeFileName with
  | Some fileName =>
      sendNotification "cfn/requestPreview"
        (PString (Uri_toString (Uri_file fileName)))
  | None => throw (TypeError "window.activeTextEditor is undefined")
  end.

(** [yamlLangaugeServerValidation], lines 175-197.  [answer] is what the
    user does with the prompt, should it be shown.  The function is
    asynchronous and [activate] does not await it: it reads the settings,
    suspends at the prompt, and writes once the answer is there.  Nothing
    else in this file touches the two settings it reads and writes, so it
    is run to its end in place. *)
Definition yamlLangaugeServerValidation (answer : option string) : M unit :=
  validateYaml ← getConfiguration_get "yaml.validate";
  cfnValidateYamlInspect ← getConfiguration_inspect "cfnLint.validateUsingJsonSchema";
  cfnValidateYaml ← getConfiguration_get "cfnLint.validateUsingJsonSchema";
  if truthy validateYaml then
    cfnValidateYaml' ←
      (if is_null (globalValue cfnValidateYamlInspect)
          || is_null (workspaceFolderValue cfnValidateYamlInspect)
          || is_null (workspaceValue cfnValidateYamlInspect)
       then
         selection ← showInformationMessage validationQuestion ["yes"; "no"] answer;
         if bool_decide (selection = Some "yes") then
           getConfiguration_update "cfnLint.validateUsingJsonSchema"
             (VBool false) Global;;
           mret cfnValidateYaml
         else if bool_decide (selection = Some "no") then
           getConfiguration_update "cfnLint.validateUsingJsonSchema"
             (VBool true) Global;;
           mret (Some (VBool true))
         else mret cfnValidateYaml
       else mret cfnValidateYaml);
    if is_false cfnValidateYaml' then
      getConfiguration_update "yaml.validate" (VBool false) Global
    else mret tt
  else mret tt.

(** The settings part of [activate], lines 55-94.  [currentTags.indexOf]
    and [currentTags.concat] throw a [TypeError] when the setting is not an
    array.  [registerYamlSchemaSupport] lives in another file and is
    recorded as a call. *)
Definition synchronizeConfiguration (answer : option string) : M unit :=
  enableAutocomplete ← getConfiguration_get "cfnLint.enableAutocomplete";
  if truthy enableAutocomplete then
    currentTags ← getConfiguration_get "yaml.customTags";
    match currentTags with
    | Some (VTags tags) =>
        getConfiguration_update "yaml.customTags" (VTags (updateTags tags)) Global;;
        yamlLangaugeServerValidation answer;;
        call "registerYamlSchemaSupport"
    | _ => throw (TypeError "currentTags is not an array")
    end
  else mret tt.

(** [activate], lines 26-121: the settings part, then the language
    client is created and started; its notification handlers and the
    command are the three handlers above. *)
Definition activate (answer : option string) : M unit :=
  synchronizeConfiguration answer;;
  call "languageClient.start".

(** *** Events *)

Inductive Event : Type :=
  | SidePreviewCommand (activeFileName : option string)
  | PreviewIsAvailable (uri : string)
  | FileClosed (uri : string)
  | PanelClosedByUser (p : nat)
  | ArtifactWritten (path content : string)
  | ArtifactRemoved (path : string).

(** One turn of the event loop.  The first four events run code of the
    extension; what a handler throws is caught and logged by its caller,
    and the world stays as the handler left it.  The last two are the
    server, or anyone else, writing and removing files. *)
Definition step (w : World) (e : Event) : World :=
  match e with
  | SidePreviewCommand a => exec (sidePreview a) w
  | PreviewIsAvailable uri => exec (onPreviewIsAvailable uri) w
  | FileClosed uri => exec (onFileClosed uri) w
  | PanelClosedByUser p => exec (dispose p) w
  | ArtifactWritten path content => set_files (insert path content) w
  | ArtifactRemoved path => set_files (delete path) w
  end.

Definition run (w : World) (es : list Event) : World := foldl step w es.

(** Every world the loop goes through, the first one included. *)
Fixpoint trace (w : World) (es : list Event) : list World :=
  match es with
  | [] => [w]
  | e :: es' => w :: trace (step w e) es'
  end.

(** The extension starts with an empty registry and no panel. *)
Definition initial (c : Configuration) (fs : gmap string string) : World :=
  mkWorld c [] [] [] ∅ ∅ 0%nat fs [] [].

(** *** What the claims speak of *)

(** The registry's entries under one document identity. *)
Definition registry_entries (key : string) (w : World) : list (string * nat) :=
  filter (λ kp, kp.1 = key) (map_to_list (previews w)).

(** The open panels that were created for one document identity: those
    whose dispose listener captured it as [previewKey]. *)
Definition panel_of (key : string) (pan : WebviewPanel) : Prop :=
  key ∈ lst_previewKey <$> onDidDispose pan.

#[global] Instance panel_of_dec key pan : Decision (panel_of key pan).
Proof. unfold panel_of. apply _. Defined.

Definition open_panels_of (key : string) (w : World) : list (nat * WebviewPanel) :=
  filter (λ ip, panel_of key ip.2) (map_to_list (panels w)).

(** The [cfn/previewClosed] notifications among those sent. *)
Definition previewClosed_sent (w : World) : list (string * Payload) :=
  filter (λ mp, mp.1 = "cfn/previewClosed") (sent w).

(** When [yamlLangaugeServerValidation] shows its prompt, as the code
    decides it (lines 180-181). *)
Definition prompt_condition (w : World) : bool :=
  let i := config_inspect "cfnLint.validateUsingJsonSchema" (settings w) in
  truthy (config_get "yaml.validate" (settings w))
  && (is_null (globalValue i) || is_null (workspaceFolderValue i)
      || is_null (workspaceValue i)).

(** The same, in the words of the specification: the generic validator is
    active and the linter's toggle is unset at every scope.  A scope where
    the toggle is absent or [null] counts as unset. *)
Definition toggle_unset (v : option value) : Prop :=
  v = None ∨ v = Some VNull.

Definition prompt_condition_as_specified (w : World) : Prop :=
  let i := config_inspect "cfnLint.validateUsingJsonSchema" (settings w) in
  truthy (config_get "yaml.validate" (settings w)) = true
  ∧ toggle_unset (globalValue i)
  ∧ toggle_unset (workspaceValue i)
  ∧ toggle_unset (workspaceFolderValue i).

(** The registry and the open panels agree: an entry refers to an open
    panel created for its key, every open panel is the entry of the key
    it was created for, and panel references are not reused. *)
Definition consistent (w : World) : Prop :=
  (∀ key p, previews w !! key = Some p →
     ∃ pan, panels w !! p = Some pan
            ∧ lst_previewKey <$> onDidDispose pan = [key])
  ∧ (∀ p pan, panels w !! p = Some pan →
     ∃ key, lst_previewKey <$> onDidDispose pan = [key]
            ∧ previews w !! key = Some p)
  ∧ (∀ p, is_Some (panels w !! p) → (p < nextPanel w)%nat).

End Extension.

(** ** Concrete worlds, for the closed statements at the end *)

(** Autocomplete enabled, two custom tags of the user's, one of them a
    CloudFormation tag. *)
Definition settings_autocomplete_on : Configuration :=
  mkConfiguration
    {[ "cfnLint.enableAutocomplete" := VBool true;
       "yaml.customTags" := VTags [];
       "yaml.validate" := VBool true ]}
    {[ "yaml.customTags" := VTags ["!Ref"; "!Custom"] ]}
    ∅ ∅.

(** Autocomplete disabled by the user; everything else would make the
    validator reconciliation prompt and write. *)
Definition settings_autocomplete_off : Configuration :=
  mkConfiguration
    {[ "cfnLint.enableAutocomplete" := VBool true;
       "yaml.customTags" := VTags [];
       "yaml.validate" := VBool true ]}
    {[ "cfnLint.enableAutocomplete" := VBool false;
       "cfnLint.validateUsingJsonSchema" := VNull ]}
    ∅ ∅.

(** The YAML validator active; the linter's toggle null in the user's
    settings and set to [true] in the workspace's. *)
Definition settings_toggle_on_in_workspace : Configuration :=
  mkConfiguration ∅
    {[ "yaml.validate" := VBool true;
       "cfnLint.validateUsingJsonSchema" := VNull ]}
    {[ "cfnLint.validateUsingJsonSchema" := VBool true ]}
    ∅.

(** The same with the workspace setting the toggle to [false]. *)
Definition settings_toggle_off_in_workspace : Configuration :=
  mkConfiguration ∅
    {[ "yaml.validate" := VBool true;
       "cfnLint.validateUsingJsonSchema" := VNull ]}
    {[ "cfnLint.validateUsingJsonSchema" := VBool false ]}
    ∅.

(** The YAML validator active and the toggle set nowhere. *)
Definition settings_toggle_nowhere : Configuration :=
  mkConfiguration {[ "yaml.validate" := VBool true ]} ∅ ∅ ∅.

Definition no_settings : Configuration := mkConfiguration ∅ ∅ ∅ ∅.

(** The server has written the artifact of [/A.yaml]. *)
Definition artifact_on_disk : gmap string string :=
  {[ "/A.yaml.dot" := "digraph { a -> b }" ]}.

(** A path as a [Uri] of [fileUri]. *)
Definition uri_of_path (path : string) : @Uri fileUri := path.

(** The extension started, for each of the settings above. *)
Definition started (c : Configuration) : @World fileUri :=
  @initial fileUri c artifact_on_disk.

(** The preview of [/A.yaml] is open. *)
Definition preview_open : @World fileUri :=
  @run fileUri (started no_settings) [PreviewIsAvailable "file:///A.yaml"].

(** The preview is open and its artifact has been removed from the disk. *)
Definition preview_open_artifact_gone : @World fileUri :=
  @run fileUri (started no_settings)
    [PreviewIsAvailable "file:///A.yaml"; ArtifactRemoved "/A.yaml.dot"].

(** ** Further notions, for the properties beyond the claims *)

(** The template of [getPreviewContent] before and after the content. *)
Definition previewHead : list string :=
  [ nl;
    tab; "<!DOCTYPE html>"; nl;
    tab; "<body>"; nl;
    tab; tab; "<script src="; dq;
      "https://unpkg.com/d3@5.16.0/dist/d3.min.js"; dq; "></script>"; nl;
    tab; tab; "<script src="; dq;
      "https://unpkg.com/@hpcc-js/wasm@0.3.11/dist/index.min.js"; dq;
      "></script>"; nl;
    tab; tab; "<script src="; dq;
      "https://unpkg.com/d3-graphviz@3.0.5/build/d3-graphviz.min.js"; dq;
      "></script>"; nl;
    tab; tab; "<div id="; dq; "graph"; dq; " style="; dq;
      "text-align: center;"; dq; "></div>"; nl;
    tab; tab; "<script>"; nl;
    tab; tab; tab; "d3.select("; dq; "#graph"; dq; ")"; nl;
    tab; tab; tab; ".graphviz()"; nl;
    tab; tab; tab; ".renderDot(" ].

Definition previewTail : list string :=
  [ ");"; nl;
    tab; tab; "</script>"; nl;
    tab; "</body>"; nl ].

(** The [cfn/requestPreview] notifications among those sent. *)
Definition requestPreview_sent `{uriApi : UriApi} (w : World) : list (string * Payload) :=
  filter (λ mp, mp.1 = "cfn/requestPreview") (sent w).

(** The invocations of the command that find an active editor. *)
Definition finds_editor (e : Event) : bool :=
  match e with SidePreviewCommand (Some _) => true | _ => false end.

Definition commands_with_editor (es : list Event) : list Event :=
  filter (λ e, finds_editor e = true) es.

(** The one event that is somebody else writing a file. *)
Definition writes_file (e : Event) : bool :=
  match e with ArtifactWritten _ _ => true | _ => false end.

(** A panel as [reloadSidePreview] makes them: of the preview's view type,
    with scripts enabled, titled after the document, showing the rendering
    of some artifact, and with one dispose listener, whose registry key and
    artifact path both come from its [Uri]. *)
Definition listener_of_uri `{uriApi : UriApi} (l : DisposeListener) : Prop :=
  lst_previewKey l = Uri_toString (lst_uri l)
  ∧ lst_dotFile l = Uri_fsPath (lst_uri l) +:+ ".dot".

Definition preview_panel `{uriApi : UriApi} (pan : WebviewPanel) : Prop :=
  viewType pan = "cfnLintPreview"
  ∧ enableScripts pan = true
  ∧ (∃ content, html pan = getPreviewContent content)
  ∧ ∃ l, onDidDispose pan = [l]
         ∧ listener_of_uri l
         ∧ title pan = "Template: " +:+ Uri_fsPath (lst_uri l).

Definition panels_wf `{uriApi : UriApi} (w : World) : Prop :=
  ∀ p pan, panels w !! p = Some pan → preview_panel pan.

(** Autocomplete enabled and no custom-tag setting at all. *)
Definition settings_no_tag_list : Configuration :=
  mkConfiguration {[ "cfnLint.enableAutocomplete" := VBool true ]} ∅ ∅ ∅.

(** The YAML validator active; the linter's toggle null in the user's
    settings and set nowhere else. *)
Definition settings_toggle_null_for_user : Configuration :=
  mkConfiguration ∅
    {[ "yaml.validate" := VBool true;
       "cfnLint.validateUsingJsonSchema" := VNull ]}
    ∅ ∅.

Section Proofs.
Context `{uriApi : UriApi}.

(** ** Proofs: the tag merge *)

Lemma indexOf_lower_bound l x : -1 ≤ indexOf l x.
Proof.
  induction l as [|y l IH]; simpl; [lia|].
  destruct (String.eqb y x); [lia|].
  destruct (Z.ltb_spec (indexOf l x) 0); lia.
Qed.

Lemma indexOf_negative l x : indexOf l x < 0 ↔ x ∉ l.
Proof.
  induction l as [|y l IH]; simpl.
  - split; [intros _; apply not_elem_of_nil | lia].
  - destruct (String.eqb_spec y x) as [->|Hne].
    + split; [lia | intros Hn; destruct Hn; left].
    + rewrite not_elem_of_cons.
      destruct (Z.ltb_spec (indexOf l x) 0) as [Hlt|Hge].
      * split; [intros _; split; [congruence | by apply IH] | lia].
      * split; [lia | intros [_ Hn]; apply IH in Hn; lia].
Qed.

Lemma elem_of_mergeTags (fixed cur : list string) x :
  x ∈ mergeTags fixed cur ↔ x ∈ cur ∨ x ∈ fixed.
Proof.
  unfold mergeTags. rewrite elem_of_app, list_elem_of_filter, bool_decide_spec.
  rewrite indexOf_negative. destruct (decide (x ∈ cur)); tauto.
Qed.

Lemma mergeTags_new_fresh (fixed cur : list string) x :
  x ∈ filter (λ item, bool_decide (indexOf cur item < 0)) fixed → x ∉ cur.
Proof.
  rewrite list_elem_of_filter, bool_decide_spec, indexOf_negative. tauto.
Qed.

Lemma new_tags_none (fixed cur : list string) :
  (∀ x, x ∈ fixed → x ∈ cur) →
  filter (λ item, bool_decide (indexOf cur item < 0)) fixed = [].
Proof.
  induction fixed as [|y fixed IH]; intros Hall; [done|].
  rewrite filter_cons_False.
  - apply IH. intros x Hx. apply Hall. by right.
  - rewrite bool_decide_spec, indexOf_negative. intros Hn. apply Hn, Hall. by left.
Qed.

Lemma mergeTags_idempotent (fixed cur : list string) :
  mergeTags fixed (mergeTags fixed cur) = mergeTags fixed cur.
Proof.
  unfold mergeTags at 1. rewrite new_tags_none; [by rewrite app_nil_r|].
  intros x Hx. apply elem_of_mergeTags. by right.
Qed.

Lemma cloudFormationTags_NoDup : NoDup cloudFormationTags.
Proof. apply (bool_decide_unpack (NoDup cloudFormationTags)). vm_compute. exact I. Qed.

(** ** Proofs: running the computations *)

Ltac unfold_m :=
  unfold exec, outcome, activate, synchronizeConfiguration,
    yamlLangaugeServerValidation, onPreviewIsAvailable, reloadSidePreview,
    onFileClosed, sidePreview, previewDisposed,
    getConfiguration_get, getConfiguration_inspect, getConfiguration_update,
    showInformationMessage, showErrorMessage, existsSync, sendNotification,
    call, mbind, M_bind, mret, M_ret, bind, ret, throw, gets, modify in *.

Ltac split_ifs :=
  repeat (simpl;
          first [ case_bool_decide
                | match goal with
                  | |- context [if ?b then _ else _] => destruct b eqn:?
                  end ]);
  simpl.

(** ** Proofs: the validator reconciliation *)

(** The routine only ever writes the global layer. *)
Lemma validation_writes_global_only answer w :
  let c' := settings (exec (yamlLangaugeServerValidation answer) w) in
  cfgDefault c' = cfgDefault (settings w)
  ∧ cfgWorkspace c' = cfgWorkspace (settings w)
  ∧ cfgWorkspaceFolder c' = cfgWorkspaceFolder (settings w).
Proof. unfold_m. split_ifs; done. Qed.

(** It leaves every key but its own two alone, and only adds to the log
    of updates. *)
Lemma validation_keeps_other_keys answer w key :
  key ≠ "cfnLint.validateUsingJsonSchema" → key ≠ "yaml.validate" →
  cfgGlobal (settings (exec (yamlLangaugeServerValidation answer) w)) !! key
  = cfgGlobal (settings w) !! key.
Proof.
  intros Hk1 Hk2. unfold_m. split_ifs;
    rewrite ?lookup_insert_ne by done; done.
Qed.

Lemma validation_extends_updates answer w :
  ∃ more, updates (exec (yamlLangaugeServerValidation answer) w)
          = updates w ++ more.
Proof.
  unfold_m. split_ifs; rewrite <-?app_assoc; eauto.
  all: by exists []; rewrite app_nil_r.
Qed.

Lemma validation_returns answer w :
  outcome (yamlLangaugeServerValidation answer) w = Ok tt.
Proof. unfold_m. split_ifs; done. Qed.

(** C8 (amended): the routine shows its prompt, once and with the two
    choices yes and no, exactly when the generic YAML validator setting
    is truthy and the linter's toggle is null in at least one of the
    global, workspace and workspace-folder layers; a yes is persisted as
    [false] and a no as [true] in the toggle's global layer, and no other
    layer is written. *)
Theorem validation_prompts_when_some_scope_is_null answer w :
  let w' := exec (yamlLangaugeServerValidation answer) w in
  informationMessages w'
  = informationMessages w
    ++ (if prompt_condition w then [(validationQuestion, ["yes"; "no"])] else [])
  ∧ (prompt_condition w = true → answer = Some "yes" →
     cfgGlobal (settings w') !! "cfnLint.validateUsingJsonSchema" = Some (VBool false)
     ∧ ("cfnLint.validateUsingJsonSchema", VBool false, Global) ∈ updates w')
  ∧ (prompt_condition w = true → answer = Some "no" →
     cfgGlobal (settings w') !! "cfnLint.validateUsingJsonSchema" = Some (VBool true)
     ∧ ("cfnLint.validateUsingJsonSchema", VBool true, Global) ∈ updates w')
  ∧ cfgDefault (settings w') = cfgDefault (settings w)
  ∧ cfgWorkspace (settings w') = cfgWorkspace (settings w)
  ∧ cfgWorkspaceFolder (settings w') = cfgWorkspaceFolder (settings w).
Proof.
  split; [|split; [|split]].
  - unfold prompt_condition. unfold_m. split_ifs;
      rewrite ?app_nil_r; try done.
  - intros Hp ->. unfold prompt_condition in Hp. unfold_m. simpl in *.
    apply andb_true_iff in Hp as [-> ->]. split_ifs;
      rewrite ?lookup_insert_ne by done; rewrite ?lookup_insert_eq;
      (split; [done|]); rewrite ?elem_of_app, ?list_elem_of_singleton; auto.
  - intros Hp ->. unfold prompt_condition in Hp. unfold_m. simpl in *.
    apply andb_true_iff in Hp as [-> ->]. split_ifs;
      rewrite ?lookup_insert_ne by done; rewrite ?lookup_insert_eq;
      (split; [done|]); rewrite ?elem_of_app, ?list_elem_of_singleton; auto.
  - apply validation_writes_global_only.
Qed.

(** C9 (amended): if the user dismisses the prompt, the linter's toggle is
    not written in any layer; the generic YAML validator setting is not
    written either, unless the toggle's effective value read before the
    prompt was already [false], in which case it is set to [false] in the
    global layer. *)
Theorem dismissed_prompt_writes w :
  prompt_condition w = true →
  let w' := exec (yamlLangaugeServerValidation None) w in
  let already_off :=
    is_false (config_get "cfnLint.validateUsingJsonSchema" (settings w)) in
  informationMessages w'
  = informationMessages w ++ [(validationQuestion, ["yes"; "no"])]
  ∧ config_inspect "cfnLint.validateUsingJsonSchema" (settings w')
    = config_inspect "cfnLint.validateUsingJsonSchema" (settings w)
  ∧ updates w'
    = updates w
      ++ (if already_off then [("yaml.validate", VBool false, Global)] else [])
  ∧ settings w'
    = (if already_off
       then config_update "yaml.validate" (VBool false) Global (settings w)
       else settings w).
Proof.
  intros Hp. unfold prompt_condition in Hp. unfold_m. simpl in *.
  apply andb_true_iff in Hp as [-> ->]. simpl.
  destruct (is_false _); simpl; rewrite ?app_nil_r; repeat split; try done.
  unfold config_inspect; simpl. by rewrite lookup_insert_ne.
Qed.

(** ** Proofs: the settings part of [activate] *)

(** C10: when the autocomplete-enable setting is false, activation writes
    no setting at all: the settings and the log of updates are as before,
    so the custom-tag list is not modified, no prompt is shown, and the
    settings part of [activate], the validator reconciliation included,
    leaves the whole world as it was. *)
Theorem activate_without_autocomplete answer w :
  truthy (config_get "cfnLint.enableAutocomplete" (settings w)) = false →
  let w' := exec (activate answer) w in
  settings w' = settings w
  ∧ updates w' = updates w
  ∧ informationMessages w' = informationMessages w
  ∧ synchronizeConfiguration answer w = (Ok tt, w)
  ∧ outcome (activate answer) w = Ok tt.
Proof. intros Hoff. unfold_m. rewrite Hoff. simpl. done. Qed.

(** C7: the tag merge is idempotent: merging the fixed CloudFormation tag
    list into the result of a merge gives that result again, for every
    initial custom-tag list. *)
Theorem updateTags_idempotent (currentTags : list string) :
  updateTags (updateTags currentTags) = updateTags currentTags.
Proof. apply mergeTags_idempotent. Qed.

(** C6: when the autocomplete-enable setting is true, [activate] writes,
    in the global layer and as its first update, the custom-tag list made
    of the existing entries followed by the new ones: the fixed
    CloudFormation tags that are not existing entries, in their
    declaration order.  As a set it is the union of the two lists, and
    the merge duplicates nothing: the new entries are distinct from one
    another and from the existing ones. *)
Theorem activate_merges_tags answer w (tags : list string) :
  truthy (config_get "cfnLint.enableAutocomplete" (settings w)) = true →
  config_get "yaml.customTags" (settings w) = Some (VTags tags) →
  let w' := exec (activate answer) w in
  ∃ new : list string,
    cfgGlobal (settings w') !! "yaml.customTags" = Some (VTags (tags ++ new))
    ∧ (∃ later, updates w'
                = updates w ++ ("yaml.customTags", VTags (tags ++ new), Global) :: later)
    ∧ cfgDefault (settings w') = cfgDefault (settings w)
    ∧ cfgWorkspace (settings w') = cfgWorkspace (settings w)
    ∧ cfgWorkspaceFolder (settings w') = cfgWorkspaceFolder (settings w)
    ∧ new = filter (λ x, x ∉ tags) cloudFormationTags
    ∧ sublist new cloudFormationTags
    ∧ (∀ x, x ∈ tags ++ new ↔ x ∈ tags ∨ x ∈ cloudFormationTags)
    ∧ NoDup new
    ∧ (∀ x, x ∈ new → x ∉ tags)
    ∧ (NoDup tags → NoDup (tags ++ new)).
Proof.
  intros Hon Htags. simpl.
  set (new := filter (λ item, bool_decide (indexOf tags item < 0)) cloudFormationTags).
  assert (Hnew : ∀ x, x ∈ new → x ∉ tags) by apply mergeTags_new_fresh.
  assert (Hnd : NoDup new) by apply NoDup_filter, cloudFormationTags_NoDup.
  assert (Hrun : exec (activate answer) w
                 = set_externalCalls (λ l, (l ++ ["registerYamlSchemaSupport"])
                                             ++ ["languageClient.start"])
                     (exec (yamlLangaugeServerValidation answer)
                        (exec (getConfiguration_update "yaml.customTags"
                                 (VTags (tags ++ new)) Global) w))).
  { unfold exec, activate, synchronizeConfiguration, getConfiguration_get, call,
      mbind, M_bind, bind, gets, modify. rewrite Hon, Htags. simpl.
    change (updateTags tags) with (tags ++ new).
    pose proof (validation_returns answer) as Hret. unfold outcome in Hret.
    match goal with
    | |- context [yamlLangaugeServerValidation answer ?v] =>
        specialize (Hret v); destruct (yamlLangaugeServerValidation answer v) as [r v']
    end.
    simpl in Hret. subst r. reflexivity. }
  exists new. rewrite Hrun. simpl.
  destruct (validation_writes_global_only answer
    (exec (getConfiguration_update "yaml.customTags" (VTags (tags ++ new)) Global) w))
    as (Hd & Hw & Hf).
  destruct (validation_extends_updates answer
    (exec (getConfiguration_update "yaml.customTags" (VTags (tags ++ new)) Global) w))
    as [later Hlater].
  split; [|split; [|split; [|split; [|split; [|split; [|split; [|split; [|split; [|split]]]]]]]]].
  - rewrite validation_keeps_other_keys by done. unfold_m. simpl.
    apply lookup_insert_eq.
  - exists later. rewrite Hlater. unfold_m. simpl. by rewrite <-app_assoc.
  - rewrite Hd. done.
  - rewrite Hw. done.
  - rewrite Hf. done.
  - unfold new. apply list_filter_iff. intros x.
    by rewrite bool_decide_spec, indexOf_negative.
  - apply sublist_filter.
  - intros x. apply (elem_of_mergeTags cloudFormationTags tags x).
  - done.
  - done.
  - intros Ht. apply NoDup_app. split; [done|]. split; [|done].
    intros x Hx Hx'. by apply (Hnew x).
Qed.

(** ** Proofs: the preview handlers, case by case *)

Section Reload.
Variable file : string.
Let uri := Uri_parse file.
Let previewKey := Uri_toString uri.
Let dotFile := Uri_fsPath uri +:+ ".dot".

Lemma reload_missing w :
  files w !! dotFile = None →
  reloadSidePreview file w
  = (Ok tt, set_errorMessages (λ l, l ++ [previewErrorMessage]) w).
Proof.
  intros Hf. unfold_m. fold uri. fold dotFile. rewrite Hf.
  rewrite bool_decide_eq_false_2 by (by intros [? ?]). done.
Qed.

Lemma reload_create w content :
  files w !! dotFile = Some content →
  previews w !! previewKey = None →
  reloadSidePreview file w
  = (Ok tt,
     set_panels (insert (nextPanel w)
         (mkPanel "cfnLintPreview" ("Template: " +:+ slice_0_neg 4 dotFile)
            true (getPreviewContent content)
            [mkListener previewKey dotFile uri]))
       (set_nextPanel S (set_previews (insert previewKey (nextPanel w)) w))).
Proof.
  intros Hf Hp. unfold_m. fold uri. fold dotFile. fold previewKey.
  rewrite bool_decide_eq_true_2 by eauto. simpl.
  unfold readFileSync. rewrite Hf, Hp. simpl.
  unfold previews_deref, panel_onDidDispose, panel_set_html, modify. simpl.
  rewrite lookup_insert_eq. simpl. rewrite lookup_insert_eq. simpl.
  rewrite alter_insert_eq, lookup_insert_eq. simpl.
  unfold set_panels, set_nextPanel, set_previews. simpl.
  by rewrite ?insert_alter_eq, ?insert_insert_eq.
Qed.

Lemma reload_refresh w content p pan :
  files w !! dotFile = Some content →
  previews w !! previewKey = Some p →
  panels w !! p = Some pan →
  reloadSidePreview file w
  = (Ok tt,
     set_panels (insert p
         (mkPanel (viewType pan) (title pan) (enableScripts pan)
            (getPreviewContent content) (onDidDispose pan))) w).
Proof.
  intros Hf Hp Hpan. unfold_m. fold uri. fold dotFile. fold previewKey.
  rewrite bool_decide_eq_true_2 by eauto. simpl.
  unfold readFileSync. rewrite Hf, Hp. simpl.
  unfold previews_deref, panel_set_html. rewrite Hp, Hpan. done.
Qed.
End Reload.

Lemma dispose_closed p w : panels w !! p = None → dispose p w = (Ok tt, w).
Proof. intros Hp. unfold dispose. by rewrite Hp. Qed.

Lemma dispose_open p pan w :
  panels w !! p = Some pan →
  dispose p w = (Ok tt, fire (onDidDispose pan) (set_panels (delete p) w)).
Proof. intros Hp. unfold dispose. by rewrite Hp. Qed.

(** The listener with its artifact on disk: entry removed, file deleted,
    notification sent. *)
Lemma previewDisposed_artifact_present l w content :
  files w !! lst_dotFile l = Some content →
  previewDisposed l w
  = (Ok tt,
     set_sent (λ s, s ++ [("cfn/previewClosed", PUri (lst_uri l))])
       (set_files (delete (lst_dotFile l))
          (set_previews (delete (lst_previewKey l)) w))).
Proof. intros Hf. unfold_m. simpl. unfold unlinkSync. simpl. by rewrite Hf. Qed.

(** The listener with its artifact gone: [unlinkSync] throws after the
    entry is removed, and the notification is not reached. *)
Lemma previewDisposed_artifact_missing l w :
  files w !! lst_dotFile l = None →
  previewDisposed l w
  = (Throw (ENOENT (lst_dotFile l)), set_previews (delete (lst_previewKey l)) w).
Proof. intros Hf. unfold_m. simpl. unfold unlinkSync. simpl. by rewrite Hf. Qed.

Lemma previewDisposed_registry l w :
  let w' := exec (previewDisposed l) w in
  previews w' = delete (lst_previewKey l) (previews w)
  ∧ panels w' = panels w ∧ nextPanel w' = nextPanel w.
Proof.
  destruct (files w !! lst_dotFile l) as [content|] eqn:Hf; unfold exec.
  - by rewrite (previewDisposed_artifact_present _ _ content).
  - by rewrite previewDisposed_artifact_missing.
Qed.

(** ** Proofs: the registry and the open panels stay consistent *)

Lemma consistent_frame w w' :
  previews w' = previews w → panels w' = panels w → nextPanel w' = nextPanel w →
  consistent w → consistent w'.
Proof. unfold consistent. intros -> -> ->. done. Qed.

Lemma consistent_initial c fs : consistent (initial c fs).
Proof.
  unfold consistent, initial; simpl. repeat split.
  - intros key p Hk. by rewrite lookup_empty in Hk.
  - intros p pan Hp. by rewrite lookup_empty in Hp.
  - intros p [pan Hp]. by rewrite lookup_empty in Hp.
Qed.

Lemma listener_keys_singleton (ls : list DisposeListener) key :
  lst_previewKey <$> ls = [key] → ∃ l, ls = [l] ∧ lst_previewKey l = key.
Proof.
  destruct ls as [|l [|l' ls]]; intros Hk; simplify_eq/=. eauto.
Qed.

Lemma dispose_consistent p w : consistent w → consistent (exec (dispose p) w).
Proof.
  intros Hc. destruct (panels w !! p) as [pan|] eqn:Hp; unfold exec.
  2: by rewrite dispose_closed.
  rewrite (dispose_open _ pan) by done. simpl.
  destruct Hc as (Hreg & Hpan & Hfresh).
  destruct (Hpan p pan Hp) as (key & Hkeys & Hkey).
  destruct (listener_keys_singleton _ _ Hkeys) as (l & -> & <-). simpl.
  destruct (previewDisposed_registry l (set_panels (delete p) w)) as (Hr & Hps & Hn).
  simpl in Hr, Hps, Hn. unfold consistent. rewrite Hr, Hps, Hn. repeat split.
  - intros key q [Hne Hq]%lookup_delete_Some.
    destruct (Hreg key q Hq) as (pan' & Hq' & Hk'). exists pan'. split; [|done].
    rewrite lookup_delete_ne; [done|]. intros <-. rewrite Hq' in Hp.
    simplify_eq. simpl in *. congruence.
  - intros q pan' [Hne Hq]%lookup_delete_Some.
    destruct (Hpan q pan' Hq) as (key & Hk' & Hkq). exists key. split; [done|].
    rewrite lookup_delete_ne; [done|]. intros <-. congruence.
  - intros q [pan' [_ Hq]%lookup_delete_Some]. apply Hfresh. eauto.
Qed.

Lemma reload_consistent file w :
  consistent w → consistent (exec (reloadSidePreview file) w).
Proof.
  intros Hc. unfold exec.
  set (uri := Uri_parse file). set (key := Uri_toString uri).
  destruct (files w !! (Uri_fsPath uri +:+ ".dot")) as [content|] eqn:Hf.
  2: { rewrite reload_missing by done. by apply (consistent_frame w). }
  destruct Hc as (Hreg & Hpan & Hfresh).
  destruct (previews w !! key) as [p|] eqn:Hp.
  - destruct (Hreg key p Hp) as (pan & Hpp & Hkeys).
    rewrite (reload_refresh file w content p pan) by done.
    unfold consistent; simpl. repeat split.
    + intros k q Hk. destruct (Hreg k q Hk) as (pan' & Hq & Hk').
      destruct (decide (q = p)) as [->|Hne].
      * rewrite lookup_insert_eq. eexists; split; [done|]. simpl. congruence.
      * rewrite lookup_insert_ne by done. eauto.
    + intros q pan' Hq. destruct (decide (q = p)) as [->|Hne].
      * rewrite lookup_insert_eq in Hq. simplify_eq/=. eauto.
      * rewrite lookup_insert_ne in Hq by done. eauto.
    + intros q [pan' Hq]. destruct (decide (q = p)) as [->|Hne].
      * apply Hfresh. eauto.
      * rewrite lookup_insert_ne in Hq by done. apply Hfresh. eauto.
  - rewrite (reload_create file w content) by done.
    assert (Hnew : panels w !! nextPanel w = None).
    { destruct (panels w !! nextPanel w) eqn:Hn; [|done].
      assert (nextPanel w < nextPanel w)%nat by (apply Hfresh; eauto). lia. }
    unfold consistent; simpl. repeat split.
    + intros k q Hk. destruct (decide (k = key)) as [->|Hne].
      * rewrite lookup_insert_eq in Hk. simplify_eq.
        rewrite lookup_insert_eq. eauto.
      * rewrite lookup_insert_ne in Hk by done.
        destruct (Hreg k q Hk) as (pan' & Hq & Hk'). exists pan'.
        split; [|done]. rewrite lookup_insert_ne; [done|]. congruence.
    + intros q pan' Hq. destruct (decide (q = nextPanel w)) as [->|Hne].
      * rewrite lookup_insert_eq in Hq. simplify_eq/=.
        exists key. by rewrite lookup_insert_eq.
      * rewrite lookup_insert_ne in Hq by done.
        destruct (Hpan q pan' Hq) as (k & Hk' & Hkq). exists k.
        split; [done|]. rewrite lookup_insert_ne; [done|].
        intros Heq. subst k. unfold key, uri in Hp. congruence.
    + intros q [pan' Hq]. destruct (decide (q = nextPanel w)) as [->|Hne]; [lia|].
      rewrite lookup_insert_ne in Hq by done.
      assert (q < nextPanel w)%nat by (apply Hfresh; eauto). lia.
Qed.

Lemma step_consistent w e : consistent w → consistent (step w e).
Proof.
  intros Hc. destruct e as [a|uri|uri|p|path content|path]; simpl.
  - apply (consistent_frame w); try done; destruct a; done.
  - by apply reload_consistent.
  - unfold exec, onFileClosed, mbind, M_bind, bind, previews_deref.
    destruct (previews w !! uri) as [p|]; [|done].
    by apply dispose_consistent.
  - by apply dispose_consistent.
  - by apply (consistent_frame w).
  - by apply (consistent_frame w).
Qed.

Lemma trace_consistent es : ∀ w, consistent w → Forall consistent (trace w es).
Proof.
  induction es as [|e es IH]; intros w Hc; simpl.
  - by constructor.
  - constructor; [done|]. by apply IH, step_consistent.
Qed.

Lemma run_consistent es : ∀ w, consistent w → consistent (run w es).
Proof.
  induction es as [|e es IH]; intros w Hc; simpl; [done|].
  by apply IH, step_consistent.
Qed.

Lemma NoDup_all_same {A} (l : list A) :
  NoDup l → (∀ x y, x ∈ l → y ∈ l → x = y) → (length l ≤ 1)%nat.
Proof.
  destruct l as [|x [|y l]]; simpl; intros Hnd Hsame; [lia|lia|].
  exfalso. apply NoDup_cons in Hnd as [Hx _]. apply Hx.
  rewrite (Hsame x y); [left | left | right; left].
Qed.

Lemma registry_entries_at_most_one key w :
  (length (registry_entries key w) ≤ 1)%nat.
Proof.
  apply NoDup_all_same.
  - apply NoDup_filter, NoDup_map_to_list.
  - intros [k1 p1] [k2 p2].
    unfold registry_entries. rewrite !list_elem_of_filter, !elem_of_map_to_list.
    simpl. intros [-> H1] [-> H2]. congruence.
Qed.

Lemma open_panel_registered key w p pan :
  consistent w →
  (p, pan) ∈ open_panels_of key w →
  previews w !! key = Some p ∧ panels w !! p = Some pan.
Proof.
  intros (_ & Hpan & _). unfold open_panels_of.
  rewrite list_elem_of_filter, elem_of_map_to_list. simpl. intros [Hof Hp].
  split; [|done]. destruct (Hpan p pan Hp) as (k & Hk & Hkp).
  unfold panel_of in Hof. rewrite Hk in Hof.
  apply list_elem_of_singleton in Hof. by subst.
Qed.

Lemma open_panels_at_most_one key w :
  consistent w → (length (open_panels_of key w) ≤ 1)%nat.
Proof.
  intros Hc. apply NoDup_all_same.
  - apply NoDup_filter, NoDup_map_to_list.
  - intros [p1 pan1] [p2 pan2] H1 H2.
    apply (open_panel_registered _ _ _ _ Hc) in H1 as [Hk1 Hp1].
    apply (open_panel_registered _ _ _ _ Hc) in H2 as [Hk2 Hp2].
    congruence.
Qed.

(** C1: for every sequence of events (preview requests, preview-available
    notifications and panel closes, and file-closed notifications and
    changes to the files besides), in every world the extension goes
    through the registry has at most one entry for a document identity,
    at most one open panel was created for that identity, and that panel
    is the one the entry holds. *)
Theorem registry_at_most_one_panel c fs (es : list Event) (key : string) :
  Forall (λ w,
      (length (registry_entries key w) ≤ 1)%nat
      ∧ (length (open_panels_of key w) ≤ 1)%nat
      ∧ (∀ p, previews w !! key = Some p
              ↔ ∃ pan, (p, pan) ∈ open_panels_of key w))
    (trace (initial c fs) es).
Proof.
  eapply Forall_impl; [apply trace_consistent, consistent_initial|].
  intros w Hc. split; [apply registry_entries_at_most_one|].
  split; [by apply open_panels_at_most_one|].
  intros p. split.
  - intros Hk. destruct Hc as (Hreg & _ & _).
    destruct (Hreg key p Hk) as (pan & Hp & Hkeys). exists pan.
    unfold open_panels_of. rewrite list_elem_of_filter, elem_of_map_to_list.
    split; [|done]. unfold panel_of; simpl. rewrite Hkeys. by left.
  - intros [pan Hin]. by apply (open_panel_registered key w p pan).
Qed.

(** ** Proofs: the preview-available notification *)

Lemma open_panels_exactly_one key w p :
  consistent w → previews w !! key = Some p →
  length (open_panels_of key w) = 1%nat.
Proof.
  intros Hc Hk. pose proof (open_panels_at_most_one key w Hc) as Hle.
  destruct Hc as (Hreg & _ & _). destruct (Hreg key p Hk) as (pan & Hp & Hkeys).
  assert (Hin : (p, pan) ∈ open_panels_of key w).
  { unfold open_panels_of. rewrite list_elem_of_filter, elem_of_map_to_list.
    split; [|done]. unfold panel_of; simpl. rewrite Hkeys. by left. }
  destruct (open_panels_of key w); [by apply elem_of_nil in Hin|].
  simpl in *. lia.
Qed.

(** C3: if the artifact file, the document's file-system path followed by
    [.dot], does not exist when the preview-available notification is
    handled, the error message is shown, the handler returns, and the
    registry, the open panels, the files and the notifications sent are
    as before. *)
Theorem missing_artifact_reports_error file w :
  files w !! (Uri_fsPath (Uri_parse file) +:+ ".dot") = None →
  let w' := exec (onPreviewIsAvailable file) w in
  outcome (onPreviewIsAvailable file) w = Ok tt
  ∧ errorMessages w' = errorMessages w ++ [previewErrorMessage]
  ∧ previews w' = previews w
  ∧ panels w' = panels w
  ∧ nextPanel w' = nextPanel w
  ∧ files w' = files w
  ∧ sent w' = sent w.
Proof.
  intros Hf. unfold exec, outcome, onPreviewIsAvailable.
  by rewrite reload_missing.
Qed.

(** C2: in every world the extension reaches, when a preview-available
    notification arrives and the artifact file exists (C3 is the case
    where it does not): if the registry has no panel for the identity,
    exactly one new panel is opened, showing the artifact, and registered
    under the identity; if it has one, that panel's content is replaced by
    the rendering of the artifact and no panel is opened.  Either way one
    open panel belongs to the identity afterwards. *)
Theorem preview_available_creates_or_refreshes c fs es file content :
  let w := run (initial c fs) es in
  let uri := Uri_parse file in
  let key := Uri_toString uri in
  let dotFile := Uri_fsPath uri +:+ ".dot" in
  files w !! dotFile = Some content →
  let w' := exec (onPreviewIsAvailable file) w in
  length (open_panels_of key w') = 1%nat
  ∧ match previews w !! key with
    | None =>
        ∃ pan,
          panels w !! nextPanel w = None
          ∧ panels w' = <[nextPanel w := pan]> (panels w)
          ∧ size (panels w') = S (size (panels w))
          ∧ previews w' = <[key := nextPanel w]> (previews w)
          ∧ viewType pan = "cfnLintPreview"
          ∧ html pan = getPreviewContent content
          ∧ onDidDispose pan = [mkListener key dotFile uri]
    | Some p =>
        ∃ pan,
          panels w !! p = Some pan
          ∧ panels w'
            = <[p := mkPanel (viewType pan) (title pan) (enableScripts pan)
                       (getPreviewContent content) (onDidDispose pan)]> (panels w)
          ∧ size (panels w') = size (panels w)
          ∧ nextPanel w' = nextPanel w
          ∧ previews w' = previews w
    end.
Proof.
  intros w uri key dotFile Hf w'.
  assert (Hc : consistent w) by apply run_consistent, consistent_initial.
  assert (Hc' : consistent w') by by apply reload_consistent.
  subst w'. unfold exec, onPreviewIsAvailable in *.
  destruct (previews w !! key) as [p|] eqn:Hk.
  - destruct Hc as (Hreg & _ & _). destruct (Hreg key p Hk) as (pan & Hp & _).
    rewrite (reload_refresh file w content p pan) in * by done. simpl in *.
    split; [by apply (open_panels_exactly_one key _ p)|].
    exists pan. repeat split; try done.
    rewrite map_size_insert_Some; eauto.
  - assert (Hnew : panels w !! nextPanel w = None).
    { destruct Hc as (_ & _ & Hfresh).
      destruct (panels w !! nextPanel w) eqn:Hn; [|done].
      assert (nextPanel w < nextPanel w)%nat by (apply Hfresh; eauto). lia. }
    rewrite (reload_create file w content) in * by done. simpl in *.
    split.
    + apply (open_panels_exactly_one key _ (nextPanel w)); [done|].
      simpl. apply lookup_insert_eq.
    + eexists. repeat split; try done.
      by rewrite map_size_insert_None.
Qed.

(** ** Proofs: closing *)

(** Closing a panel whose artifact is on disk: the entry is removed, the
    file is deleted, one notification with the identity's [Uri] is sent. *)
Lemma close_with_artifact_present p pan l w content :
  panels w !! p = Some pan → onDidDispose pan = [l] →
  files w !! lst_dotFile l = Some content →
  let w' := exec (dispose p) w in
  panels w' !! p = None
  ∧ previews w' !! lst_previewKey l = None
  ∧ files w' !! lst_dotFile l = None
  ∧ sent w' = sent w ++ [("cfn/previewClosed", PUri (lst_uri l))].
Proof.
  intros Hp Hl Hf. unfold exec. rewrite (dispose_open _ pan), Hl by done.
  simpl. unfold exec.
  rewrite (previewDisposed_artifact_present _ _ content) by done. simpl.
  rewrite !lookup_delete_eq. done.
Qed.

(** C4 (what the code does when the artifact is already gone): the panel
    is closed and its registry entry removed, but [unlinkSync] throws on
    the missing file and the listener never reaches [sendNotification]:
    no [cfn/previewClosed] is sent for this close. *)
Theorem close_without_artifact_sends_nothing p pan l w :
  panels w !! p = Some pan → onDidDispose pan = [l] →
  files w !! lst_dotFile l = None →
  let w' := exec (dispose p) w in
  outcome (previewDisposed l) (set_panels (delete p) w)
  = Throw (ENOENT (lst_dotFile l))
  ∧ panels w' !! p = None
  ∧ previews w' !! lst_previewKey l = None
  ∧ sent w' = sent w.
Proof.
  intros Hp Hl Hf. unfold exec, outcome.
  rewrite (dispose_open _ pan), Hl by done. simpl. unfold exec.
  rewrite previewDisposed_artifact_missing by done. simpl.
  rewrite !lookup_delete_eq. done.
Qed.

(** C5 (what the code does): with no entry for the identity in the
    registry, the file-closed handler dereferences [undefined] and throws
    a [TypeError]; the world, the registry included, is as before. *)
Theorem fileClosed_without_panel_throws uri w :
  previews w !! uri = None →
  onFileClosed uri w = (Throw (TypeError "previews[key] is undefined"), w).
Proof.
  intros Hk. unfold onFileClosed, mbind, M_bind, bind, previews_deref.
  by rewrite Hk.
Qed.

(** ** Further properties: the rendering *)

Lemma string_app_cons a (s t : string) : String a s +:+ t = String a (s +:+ t).
Proof. reflexivity. Qed.

Lemma string_app_nil_r (s : string) : s +:+ EmptyString = s.
Proof. induction s as [|a s IH]; [done|]. by rewrite string_app_cons, IH. Qed.

Lemma string_app_assoc (s t u : string) : (s +:+ t) +:+ u = s +:+ (t +:+ u).
Proof. induction s as [|a s IH]; [done|]. by rewrite !string_app_cons, IH. Qed.

Lemma string_length_app (s t : string) :
  String.length (s +:+ t) = (String.length s + String.length t)%nat.
Proof. induction s as [|a s IH]; [done|]. rewrite string_app_cons. simpl. by rewrite IH. Qed.

Lemma string_app_inv_tail (s1 s2 t : string) : s1 +:+ t = s2 +:+ t → s1 = s2.
Proof.
  revert s2. induction s1 as [|a s1 IH]; intros [|b s2] Heq; [done| | |].
  - apply (f_equal String.length) in Heq.
    rewrite !string_length_app in Heq. simpl in Heq. lia.
  - apply (f_equal String.length) in Heq.
    rewrite !string_length_app in Heq. simpl in Heq. lia.
  - rewrite !string_app_cons in Heq. injection Heq as -> Heq. f_equal. by apply IH.
Qed.

Lemma concat_strings_app (l1 l2 : list string) :
  concat_strings (l1 ++ l2) = concat_strings l1 +:+ concat_strings l2.
Proof.
  induction l1 as [|s l1 IH]; simpl; [done|].
  by rewrite IH, string_app_assoc.
Qed.

(** The rendering is the fixed head, a backtick, the content as it is, a
    backtick, and the fixed tail. *)
Lemma getPreviewContent_shape content :
  getPreviewContent content
  = concat_strings previewHead
    +:+ "`" +:+ content +:+ "`" +:+ concat_strings previewTail.
Proof.
  change (getPreviewContent content)
    with (concat_strings (previewHead ++ ["`" +:+ content +:+ "`"] ++ previewTail)).
  rewrite !concat_strings_app.
  change (concat_strings ["`" +:+ content +:+ "`"])
    with (("`" +:+ content +:+ "`") +:+ EmptyString).
  by rewrite string_app_nil_r, !string_app_assoc.
Qed.

(** X1: two artifacts are rendered to the same markup only if they are the
    same text: the content can be read back from the rendering. *)
Theorem getPreviewContent_injective (c1 c2 : string) :
  getPreviewContent c1 = getPreviewContent c2 ↔ c1 = c2.
Proof.
  split; [|by intros ->].
  rewrite !getPreviewContent_shape. intros Heq.
  apply (inj _) in Heq. apply (inj _) in Heq.
  by apply string_app_inv_tail in Heq.
Qed.

(** ** Further properties: the tag merge *)

(** X2: the merge returns the list it was given exactly when every
    CloudFormation tag is already in it. *)
Theorem updateTags_fixed_point (currentTags : list string) :
  updateTags currentTags = currentTags
  ↔ ∀ tag, tag ∈ cloudFormationTags → tag ∈ currentTags.
Proof.
  unfold updateTags, mergeTags. split.
  - intros Heq tag Htag.
    assert (Hnil : filter (λ item, bool_decide (indexOf currentTags item < 0))
                     cloudFormationTags = []).
    { apply (app_inv_head currentTags). by rewrite app_nil_r. }
    clear Heq. rename Hnil into Heq.
        destruct (decide (tag ∈ currentTags)) as [|Hn]; [done|]. exfalso.
    assert (Hin : tag ∈ filter (λ item, bool_decide (indexOf currentTags item < 0))
                          cloudFormationTags).
    { apply list_elem_of_filter. split; [|done].
      by apply bool_decide_spec, indexOf_negative. }
    rewrite Heq in Hin. by apply elem_of_nil in Hin.
  - intros Hall. by rewrite new_tags_none, app_nil_r.
Qed.

(** ** Further properties: the settings part of [activate] *)

(** What [activate] does when autocomplete is enabled and the custom tags
    are an array. *)
Lemma activate_with_autocomplete answer w (tags : list string) :
  truthy (config_get "cfnLint.enableAutocomplete" (settings w)) = true →
  config_get "yaml.customTags" (settings w) = Some (VTags tags) →
  activate answer w
  = (Ok tt,
     set_externalCalls (λ l, (l ++ ["registerYamlSchemaSupport"])
                               ++ ["languageClient.start"])
       (exec (yamlLangaugeServerValidation answer)
          (exec (getConfiguration_update "yaml.customTags"
                   (VTags (updateTags tags)) Global) w))).
Proof.
  intros Hon Htags.
  unfold exec, activate, synchronizeConfiguration, getConfiguration_get, call,
    mbind, M_bind, bind, gets, modify. rewrite Hon, Htags. simpl.
  pose proof (validation_returns answer) as Hret. unfold outcome in Hret.
  match goal with
  | |- context [yamlLangaugeServerValidation answer ?v] =>
      specialize (Hret v); destruct (yamlLangaugeServerValidation answer v) as [r v']
  end.
  simpl in Hret. subst r. reflexivity.
Qed.

Lemma activate_settings answer w (tags : list string) :
  truthy (config_get "cfnLint.enableAutocomplete" (settings w)) = true →
  config_get "yaml.customTags" (settings w) = Some (VTags tags) →
  let c' := settings (exec (activate answer) w) in
  cfgDefault c' = cfgDefault (settings w)
  ∧ cfgWorkspace c' = cfgWorkspace (settings w)
  ∧ cfgWorkspaceFolder c' = cfgWorkspaceFolder (settings w)
  ∧ cfgGlobal c' !! "yaml.customTags" = Some (VTags (updateTags tags))
  ∧ cfgGlobal c' !! "cfnLint.enableAutocomplete"
    = cfgGlobal (settings w) !! "cfnLint.enableAutocomplete".
Proof.
  intros Hon Htags. unfold exec at 1.
  rewrite (activate_with_autocomplete answer w tags) by done. simpl.
  set (w0 := exec (getConfiguration_update "yaml.customTags"
                     (VTags (updateTags tags)) Global) w).
  destruct (validation_writes_global_only answer w0) as (Hd & Hw & Hf).
  rewrite Hd, Hw, Hf, !validation_keeps_other_keys by done.
  subst w0. unfold_m. simpl. rewrite lookup_insert_eq, lookup_insert_ne by done.
  done.
Qed.

(** X3: with autocomplete enabled and the custom-tag setting not an array
    (unset, null or a boolean), [activate] throws a [TypeError] before it
    writes a setting, shows a prompt or starts the language client: the
    world is as before. *)
Theorem activate_without_tag_list answer w :
  truthy (config_get "cfnLint.enableAutocomplete" (settings w)) = true →
  (∀ tags, config_get "yaml.customTags" (settings w) ≠ Some (VTags tags)) →
  activate answer w = (Throw (TypeError "currentTags is not an array"), w).
Proof.
  intros Hon Hno.
  unfold activate, synchronizeConfiguration, getConfiguration_get,
    mbind, M_bind, bind, gets, throw. rewrite Hon. simpl.
  destruct (config_get "yaml.customTags" (settings w)) as [[| |tags]|] eqn:Ht;
    try done.
  by destruct (Hno tags).
Qed.

(** X4: activating a second time writes the same custom-tag list as the
    first time, whatever the answers to the prompt: the global list does
    not grow from one activation to the next. *)
Theorem activate_twice_same_tags a1 a2 w (tags : list string) :
  truthy (config_get "cfnLint.enableAutocomplete" (settings w)) = true →
  config_get "yaml.customTags" (settings w) = Some (VTags tags) →
  let w1 := exec (activate a1) w in
  let w2 := exec (activate a2) w1 in
  outcome (activate a2) w1 = Ok tt
  ∧ cfgGlobal (settings w1) !! "yaml.customTags" = Some (VTags (updateTags tags))
  ∧ cfgGlobal (settings w2) !! "yaml.customTags" = Some (VTags (updateTags tags)).
Proof.
  intros Hon Htags w1 w2.
  destruct (activate_settings a1 w tags Hon Htags) as (Hd & Hw & Hf & Hg & He).
  fold w1 in Hd, Hw, Hf, Hg, He.
  assert (Hon1 : truthy (config_get "cfnLint.enableAutocomplete" (settings w1)) = true).
  { unfold config_get in *. by rewrite Hd, Hw, Hf, He. }
  assert (Htags1 : ∃ tags', config_get "yaml.customTags" (settings w1) = Some (VTags tags')
                           ∧ updateTags tags' = updateTags tags).
  { unfold config_get in *. rewrite Hd, Hw, Hf, Hg.
    destruct (cfgWorkspaceFolder (settings w) !! "yaml.customTags"); [by eauto|].
    destruct (cfgWorkspace (settings w) !! "yaml.customTags"); [by eauto|].
    exists (updateTags tags). split; [done|]. apply mergeTags_idempotent. }
  destruct Htags1 as (tags' & Htags1 & Hsame).
  destruct (activate_settings a2 w1 tags' Hon1 Htags1) as (_ & _ & _ & Hg2 & _).
  split; [|split; [done|]].
  - unfold outcome. by rewrite (activate_with_autocomplete a2 w1 tags').
  - subst w2. rewrite Hg2. by rewrite Hsame.
Qed.

(** ** Further properties: the validator reconciliation *)

(** While the generic YAML validator setting is falsy the routine neither
    prompts nor writes. *)
Lemma validation_off_is_noop answer w :
  truthy (config_get "yaml.validate" (settings w)) = false →
  yamlLangaugeServerValidation answer w = (Ok tt, w).
Proof. intros Hoff. unfold_m. by rewrite Hoff. Qed.

(** X5: once a run of the routine has changed the value in effect of the
    generic YAML validator setting, the routine is settled: every later
    run, whatever the answer would be, neither prompts nor writes. *)
Theorem validation_settles answer answer' w :
  let w1 := exec (yamlLangaugeServerValidation answer) w in
  config_get "yaml.validate" (settings w1) ≠ config_get "yaml.validate" (settings w) →
  yamlLangaugeServerValidation answer' w1 = (Ok tt, w1).
Proof.
  intros w1 Hchanged. apply validation_off_is_noop.
  revert Hchanged. subst w1. unfold_m. split_ifs; intros Hchanged;
    unfold config_get in *; simpl in *;
    rewrite ?lookup_insert_eq, ?lookup_insert_ne in Hchanged |- * by done;
    destruct (cfgWorkspaceFolder (settings w) !! "yaml.validate");
    destruct (cfgWorkspace (settings w) !! "yaml.validate"); done.
Qed.

(** X6: a prompt answered no makes one write, the toggle set to [true] in
    the global layer; the generic YAML validator setting keeps its value,
    also when the toggle was in effect [false] before. *)
Theorem answer_no_keeps_yaml_validation w :
  prompt_condition w = true →
  let w' := exec (yamlLangaugeServerValidation (Some "no")) w in
  updates w'
  = updates w ++ [("cfnLint.validateUsingJsonSchema", VBool true, Global)]
  ∧ settings w'
    = config_update "cfnLint.validateUsingJsonSchema" (VBool true) Global (settings w)
  ∧ config_get "yaml.validate" (settings w')
    = config_get "yaml.validate" (settings w).
Proof.
  intros Hp. unfold prompt_condition in Hp. unfold_m. simpl in *.
  apply andb_true_iff in Hp as [-> ->]. simpl. repeat split.
  unfold config_get; simpl. by rewrite lookup_insert_ne.
Qed.

(** The routine when no layer holds null for the toggle. *)
Lemma validation_without_prompt answer w :
  truthy (config_get "yaml.validate" (settings w)) = true →
  prompt_condition w = false →
  yamlLangaugeServerValidation answer w
  = if is_false (config_get "cfnLint.validateUsingJsonSchema" (settings w))
    then getConfiguration_update "yaml.validate" (VBool false) Global w
    else (Ok tt, w).
Proof.
  intros Hv Hp. unfold prompt_condition in Hp. rewrite Hv in Hp. simpl in Hp.
  unfold_m. simpl. rewrite Hv. simpl in *. rewrite Hp. by destruct (is_false _).
Qed.

(** X7: a prompt answered yes, with the toggle null in the global layer and
    set in no other, writes the toggle only; the generic YAML validator is
    switched off by the next run of the routine, which does not prompt. *)
Theorem answer_yes_applies_on_next_run answer w :
  truthy (config_get "yaml.validate" (settings w)) = true →
  cfgGlobal (settings w) !! "cfnLint.validateUsingJsonSchema" = Some VNull →
  cfgWorkspace (settings w) !! "cfnLint.validateUsingJsonSchema" = None →
  cfgWorkspaceFolder (settings w) !! "cfnLint.validateUsingJsonSchema" = None →
  let w1 := exec (yamlLangaugeServerValidation (Some "yes")) w in
  let w2 := exec (yamlLangaugeServerValidation answer) w1 in
  updates w1
  = updates w ++ [("cfnLint.validateUsingJsonSchema", VBool false, Global)]
  ∧ config_get "yaml.validate" (settings w1)
    = config_get "yaml.validate" (settings w)
  ∧ informationMessages w2 = informationMessages w1
  ∧ updates w2 = updates w1 ++ [("yaml.validate", VBool false, Global)].
Proof.
  intros Hv Hg Hw Hf w1 w2.
  assert (Hw1 : w1 = set_updates
                  (λ l, l ++ [("cfnLint.validateUsingJsonSchema", VBool false, Global)])
                  (set_settings
                     (config_update "cfnLint.validateUsingJsonSchema" (VBool false) Global)
                     (set_informationMessages
                        (λ l, l ++ [(validationQuestion, ["yes"; "no"])]) w))).
  { subst w1. unfold_m. simpl. rewrite Hv. unfold config_get. rewrite Hf, Hw, Hg. done. }
  assert (Hv1 : config_get "yaml.validate" (settings w1)
                = config_get "yaml.validate" (settings w)).
  { rewrite Hw1. unfold config_get; simpl. by rewrite lookup_insert_ne. }
  assert (Hoff : is_false (config_get "cfnLint.validateUsingJsonSchema" (settings w1))
                 = true).
  { rewrite Hw1. unfold config_get; simpl. by rewrite Hf, Hw, lookup_insert_eq. }
  assert (Hp1 : prompt_condition w1 = false).
  { unfold prompt_condition. rewrite Hv1, Hv. rewrite Hw1. simpl.
    by rewrite Hf, Hw, lookup_insert_eq. }
  split; [by rewrite Hw1|]. split; [done|].
  subst w2. unfold exec.
  rewrite validation_without_prompt, Hoff by (by rewrite ?Hv1).
  unfold getConfiguration_update, modify. simpl. done.
Qed.

(** X8: whatever the settings and the answer, the routine makes at most
    two writes, each of them in the global layer and one of: the toggle
    set to [false], the toggle set to [true], the generic YAML validator
    set to [false].  It never switches the generic validator on and never
    writes a workspace or folder setting. *)
Theorem validation_write_footprint answer w :
  ∃ more,
    updates (exec (yamlLangaugeServerValidation answer) w) = updates w ++ more
    ∧ (length more ≤ 2)%nat
    ∧ Forall (λ u, u = ("cfnLint.validateUsingJsonSchema", VBool false, Global)
                   ∨ u = ("cfnLint.validateUsingJsonSchema", VBool true, Global)
                   ∨ u = ("yaml.validate", VBool false, Global)) more.
Proof.
  unfold_m. split_ifs; rewrite <-?app_assoc; simpl;
    first [ eexists [_; _]; split; [reflexivity|]
          | eexists [_]; split; [reflexivity|]
          | exists []; split; [by rewrite app_nil_r|] ];
    (split; [simpl; lia|]); repeat first [apply List.Forall_nil | apply List.Forall_cons; [auto|]].
Qed.

(** ** Further properties: what the preview handlers leave alone *)

(** With a registry entry that refers to no open panel, the write to the
    panel is refused. *)
Lemma reload_dangling file w content p :
  files w !! (Uri_fsPath (Uri_parse file) +:+ ".dot") = Some content →
  previews w !! Uri_toString (Uri_parse file) = Some p →
  panels w !! p = None →
  reloadSidePreview file w = (Throw WebviewDisposed, w).
Proof.
  intros Hf Hp Hpan. unfold_m.
  rewrite bool_decide_eq_true_2 by eauto. simpl.
  unfold readFileSync. rewrite Hf, Hp. simpl.
  unfold previews_deref, panel_set_html. by rewrite Hp, Hpan.
Qed.

Lemma reload_frame file w :
  let w' := exec (reloadSidePreview file) w in
  settings w' = settings w ∧ updates w' = updates w
  ∧ informationMessages w' = informationMessages w
  ∧ files w' = files w ∧ sent w' = sent w.
Proof.
  unfold exec.
  destruct (files w !! (Uri_fsPath (Uri_parse file) +:+ ".dot")) as [content|] eqn:Hf.
  2: by rewrite reload_missing.
  destruct (previews w !! Uri_toString (Uri_parse file)) as [p|] eqn:Hp.
  2: by rewrite (reload_create file w content).
  destruct (panels w !! p) as [pan|] eqn:Hpan.
  - by rewrite (reload_refresh file w content p pan).
  - by rewrite (reload_dangling file w content p).
Qed.

Lemma previewDisposed_frame l w :
  let w' := exec (previewDisposed l) w in
  settings w' = settings w ∧ updates w' = updates w
  ∧ informationMessages w' = informationMessages w
  ∧ panels w' = panels w ∧ nextPanel w' = nextPanel w
  ∧ files w' ⊆ files w
  ∧ ∃ more, sent w' = sent w ++ more
            ∧ (length more ≤ 1)%nat
            ∧ Forall (λ mp, mp.1 = "cfn/previewClosed") more.
Proof.
  unfold exec.
  destruct (files w !! lst_dotFile l) as [content|] eqn:Hf.
  - rewrite (previewDisposed_artifact_present _ _ content) by done. simpl.
    split_and!; try done; [apply delete_subseteq|].
    eexists [_]. split; [done|]. split; [simpl; lia|].
    by apply List.Forall_cons.
  - rewrite previewDisposed_artifact_missing by done. simpl.
    split_and!; try done. exists []. rewrite app_nil_r.
    split_and!; [done | simpl; lia | constructor].
Qed.

Lemma fire_frame ls : ∀ w,
  let w' := fire ls w in
  settings w' = settings w ∧ updates w' = updates w
  ∧ informationMessages w' = informationMessages w
  ∧ panels w' = panels w ∧ nextPanel w' = nextPanel w
  ∧ files w' ⊆ files w
  ∧ ∃ more, sent w' = sent w ++ more
            ∧ (length more ≤ length ls)%nat
            ∧ Forall (λ mp, mp.1 = "cfn/previewClosed") more.
Proof.
  induction ls as [|l ls IH]; intros w; simpl.
  - split_and!; try done. exists []. rewrite app_nil_r.
    split_and!; [done | simpl; lia | constructor].
  - destruct (previewDisposed_frame l w)
      as (Hs & Hu & Hi & Hp & Hn & Hf & more1 & Hm1 & Hl1 & Ha1).
    destruct (IH (exec (previewDisposed l) w))
      as (Hs' & Hu' & Hi' & Hp' & Hn' & Hf' & more2 & Hm2 & Hl2 & Ha2).
    unfold fire in *. simpl in *.
    rewrite Hs', Hu', Hi', Hp', Hn', Hs, Hu, Hi, Hp, Hn.
    split_and!; try done; [by etrans|].
    exists (more1 ++ more2). rewrite Hm2, Hm1, <-app_assoc.
    split; [done|]. rewrite length_app. split; [lia|]. by apply Forall_app.
Qed.

Lemma dispose_frame p w :
  let w' := exec (dispose p) w in
  settings w' = settings w ∧ updates w' = updates w
  ∧ informationMessages w' = informationMessages w
  ∧ nextPanel w' = nextPanel w
  ∧ files w' ⊆ files w
  ∧ ∃ more, sent w' = sent w ++ more
            ∧ Forall (λ mp, mp.1 = "cfn/previewClosed") more.
Proof.
  unfold exec. destruct (panels w !! p) as [pan|] eqn:Hp.
  - rewrite (dispose_open _ pan) by done. simpl.
    destruct (fire_frame (onDidDispose pan) (set_panels (delete p) w))
      as (Hs & Hu & Hi & _ & Hn & Hf & more & Hm & _ & Ha).
    simpl in *. split_and!; try done. by exists more.
  - rewrite dispose_closed by done.
    split_and!; try done. exists []. rewrite app_nil_r. split; [done | constructor].
Qed.

Lemma step_frame w e :
  settings (step w e) = settings w ∧ updates (step w e) = updates w
  ∧ informationMessages (step w e) = informationMessages w
  ∧ (writes_file e = false → files (step w e) ⊆ files w).
Proof.
  destruct e as [[fileName|]|uri|uri|p|path content|path]; simpl;
    try by (split_and!).
  - destruct (reload_frame uri w) as (Hs & Hu & Hi & Hf & _).
    unfold onPreviewIsAvailable. by rewrite Hf.
  - unfold exec, onFileClosed, mbind, M_bind, bind, previews_deref.
    destruct (previews w !! uri) as [p|]; [|done].
    destruct (dispose_frame p w) as (Hs & Hu & Hi & _ & Hf & _). done.
  - destruct (dispose_frame p w) as (Hs & Hu & Hi & _ & Hf & _). done.
  - split_and!; try done. intros _. apply delete_subseteq.
Qed.

(** X9: the preview events never write a setting and never show the
    validator prompt: after any sequence of them the settings, the log of
    updates and the prompts are as they were. *)
Theorem preview_events_leave_settings (es : list Event) : ∀ w,
  settings (run w es) = settings w
  ∧ updates (run w es) = updates w
  ∧ informationMessages (run w es) = informationMessages w.
Proof.
  induction es as [|e es IH]; intros w; simpl; [done|].
  destruct (IH (step w e)) as (Hs & Hu & Hi).
  destruct (step_frame w e) as (Hs' & Hu' & Hi' & _).
  unfold run in *. by rewrite Hs, Hu, Hi.
Qed.

(** X10: the extension never creates a file and never changes one: over a
    sequence of events in which nobody else writes a file, every file that
    is on disk afterwards was there before, with the same content. *)
Theorem extension_never_writes_files (es : list Event) : ∀ w,
  Forall (λ e, writes_file e = false) es →
  files (run w es) ⊆ files w.
Proof.
  induction es as [|e es IH]; intros w Hes; simpl; [done|].
  apply Forall_cons in Hes as [He Hes].
  etrans; [by apply IH|]. by apply step_frame.
Qed.

(** ** Further properties: notifications sent *)

Lemma closed_are_not_requests (more : list (string * Payload)) :
  Forall (λ mp, mp.1 = "cfn/previewClosed") more →
  filter (λ mp, mp.1 = "cfn/requestPreview") more = [].
Proof.
  induction 1 as [|mp more Hmp _ IH]; [done|].
  rewrite filter_cons_False; [done|]. by rewrite Hmp.
Qed.

Lemma closed_filter_bound (more : list (string * Payload)) :
  (length (filter (λ mp, mp.1 = "cfn/previewClosed") more) ≤ length more)%nat.
Proof. apply length_filter. Qed.

Lemma step_requests w e :
  length (requestPreview_sent (step w e))
  = (length (requestPreview_sent w) + (if finds_editor e then 1 else 0))%nat.
Proof.
  unfold requestPreview_sent.
  destruct e as [[fileName|]|uri|uri|p|path content|path]; simpl;
    rewrite ?Nat.add_0_r; try done.
  - rewrite filter_app, length_app. f_equal.
  - destruct (reload_frame uri w) as (_ & _ & _ & _ & Hs).
    unfold onPreviewIsAvailable. by rewrite Hs.
  - unfold exec, onFileClosed, mbind, M_bind, bind, previews_deref.
    destruct (previews w !! uri) as [p|]; [|done].
    destruct (dispose_frame p w) as (_ & _ & _ & _ & _ & more & Hm & Ha).
    unfold exec in Hm. rewrite Hm, filter_app, (closed_are_not_requests more) by done.
    by rewrite app_nil_r.
  - destruct (dispose_frame p w) as (_ & _ & _ & _ & _ & more & Hm & Ha).
    rewrite Hm, filter_app, (closed_are_not_requests more) by done.
    by rewrite app_nil_r.
Qed.

(** X11: one [cfn/requestPreview] notification is sent per invocation of
    the command that finds an active editor, and none otherwise: after any
    sequence of events their number is the number of such invocations. *)
Theorem requestPreview_per_command c fs (es : list Event) :
  length (requestPreview_sent (run (initial c fs) es))
  = length (commands_with_editor es).
Proof.
  assert (Hgen : ∀ w, length (requestPreview_sent (run w es))
                      = (length (requestPreview_sent w)
                         + length (commands_with_editor es))%nat).
  { induction es as [|e es IH]; intros w; [simpl; by rewrite Nat.add_0_r|].
    change (run w (e :: es)) with (run (step w e) es). rewrite IH, step_requests.
    unfold commands_with_editor. destruct (finds_editor e) eqn:He.
    - rewrite filter_cons_True by done. simpl. lia.
    - rewrite filter_cons_False by (by rewrite He). lia. }
  by rewrite Hgen.
Qed.

(** At most one [cfn/previewClosed] per panel closed: the notifications and
    the open panels together never outnumber the panels created. *)
Lemma step_accounting w e :
  consistent w →
  (length (previewClosed_sent w) + size (panels w) ≤ nextPanel w)%nat →
  (length (previewClosed_sent (step w e)) + size (panels (step w e))
   ≤ nextPanel (step w e))%nat.
Proof.
  intros Hc Hacc.
  assert (Hdispose : ∀ p,
    (length (previewClosed_sent (exec (dispose p) w))
     + size (panels (exec (dispose p) w)) ≤ nextPanel (exec (dispose p) w))%nat).
  { intros p. unfold exec. destruct (panels w !! p) as [pan|] eqn:Hp.
    2: by rewrite dispose_closed.
    rewrite (dispose_open _ pan) by done. simpl.
    destruct Hc as (_ & Hpan & _). destruct (Hpan p pan Hp) as (key & Hkeys & _).
    destruct (listener_keys_singleton _ _ Hkeys) as (l & Hl & _).
    destruct (fire_frame (onDidDispose pan) (set_panels (delete p) w))
      as (_ & _ & _ & Hps & Hn & _ & more & Hm & Hlen & _).
    simpl in *. unfold previewClosed_sent in *.
    rewrite Hm, Hps, Hn, filter_app, length_app, Hl in *. simpl in Hlen.
    pose proof (closed_filter_bound more).
    rewrite map_size_delete_Some by eauto.
    assert (size (panels w) ≠ 0%nat).
    { intros Hz. apply map_size_empty_iff in Hz. rewrite Hz in Hp.
      by rewrite lookup_empty in Hp. }
    lia. }
  destruct e as [[fileName|]|uri|uri|p|path content|path]; simpl; try done.
  - unfold previewClosed_sent in *. simpl.
    rewrite filter_app, filter_cons_False by done. by rewrite app_nil_r.
  - unfold exec, onPreviewIsAvailable, previewClosed_sent in *.
    destruct (files w !! (Uri_fsPath (Uri_parse uri) +:+ ".dot")) as [content|] eqn:Hf.
    2: by rewrite reload_missing.
    destruct (previews w !! Uri_toString (Uri_parse uri)) as [p|] eqn:Hp.
    + destruct (panels w !! p) as [pan|] eqn:Hpan.
      * rewrite (reload_refresh uri w content p pan) by done. simpl.
        rewrite map_size_insert_Some by eauto. done.
      * by rewrite (reload_dangling uri w content p).
    + rewrite (reload_create uri w content) by done. simpl.
      pose proof (map_size_insert (nextPanel w)
        (mkPanel "cfnLintPreview"
           ("Template: " +:+ slice_0_neg 4 (Uri_fsPath (Uri_parse uri) +:+ ".dot"))
           true (getPreviewContent content)
           [mkListener (Uri_toString (Uri_parse uri))
              (Uri_fsPath (Uri_parse uri) +:+ ".dot") (Uri_parse uri)])
        (panels w)) as Hsize.
      destruct (panels w !! nextPanel w); simpl in Hsize; lia.
  - unfold exec at 1 2 3, onFileClosed, mbind, M_bind, bind, previews_deref.
    destruct (previews w !! uri) as [p|]; [|done]. apply Hdispose.
Qed.

(** X12: after any sequence of events, the [cfn/previewClosed]
    notifications sent and the panels still open together are at most the
    panels ever created: no close is notified twice and nothing but a
    close sends the notification. *)
Theorem previewClosed_at_most_once_per_panel c fs (es : list Event) :
  let w := run (initial c fs) es in
  (length (previewClosed_sent w) + size (panels w) ≤ nextPanel w)%nat.
Proof.
  assert (Hgen : ∀ w, consistent w →
    (length (previewClosed_sent w) + size (panels w) ≤ nextPanel w)%nat →
    (length (previewClosed_sent (run w es)) + size (panels (run w es))
     ≤ nextPanel (run w es))%nat).
  { induction es as [|e es IH]; intros w Hc Hacc; [done|].
    change (run w (e :: es)) with (run (step w e) es).
    apply IH; [by apply step_consistent | by apply step_accounting]. }
  apply Hgen; [apply consistent_initial|].
  unfold previewClosed_sent; simpl. by rewrite map_size_empty.
Qed.

(** ** Further properties: the panels the extension opens *)

Lemma substring_prefix (s t : string) :
  String.substring 0%nat (String.length s) (s +:+ t) = s.
Proof.
  induction s as [|a s IH]; simpl.
  - change (EmptyString +:+ t) with t. by destruct t.
  - rewrite ?string_app_cons. simpl. by rewrite IH.
Qed.

(** [(s + ".dot").slice(0, -4)] is [s]. *)
Lemma slice_dot_suffix (s : string) : slice_0_neg 4 (s +:+ ".dot") = s.
Proof.
  unfold slice_0_neg. rewrite string_length_app. simpl.
  replace (String.length s + 4 - 4)%nat with (String.length s) by lia.
  apply substring_prefix.
Qed.

Lemma step_panels_wf w e : panels_wf w → panels_wf (step w e).
Proof.
  intros Hwf.
  assert (Hdispose : ∀ p, panels_wf (exec (dispose p) w)).
  { intros p. unfold exec. destruct (panels w !! p) as [pan|] eqn:Hp.
    2: by rewrite dispose_closed.
    rewrite (dispose_open _ pan) by done. simpl.
    destruct (fire_frame (onDidDispose pan) (set_panels (delete p) w))
      as (_ & _ & _ & Hps & _).
    intros q pan' Hq. rewrite Hps in Hq. simpl in Hq.
    apply lookup_delete_Some in Hq as [_ Hq]. by apply (Hwf q). }
  destruct e as [[fileName|]|uri|uri|p|path content|path]; simpl; try done.
  - unfold exec, onPreviewIsAvailable.
    destruct (files w !! (Uri_fsPath (Uri_parse uri) +:+ ".dot")) as [content|] eqn:Hf.
    2: by rewrite reload_missing.
    destruct (previews w !! Uri_toString (Uri_parse uri)) as [p|] eqn:Hp.
    + destruct (panels w !! p) as [pan|] eqn:Hpan.
      2: by rewrite (reload_dangling uri w content p).
      rewrite (reload_refresh uri w content p pan) by done.
      intros q pan' Hq. simpl in Hq.
      destruct (decide (q = p)) as [->|Hne].
      * rewrite lookup_insert_eq in Hq. simplify_eq.
        destruct (Hwf p pan Hpan) as (Hv & Hs & _ & Hl).
        split_and!; simpl; eauto.
      * rewrite lookup_insert_ne in Hq by done. by apply (Hwf q).
    + rewrite (reload_create uri w content) by done.
      intros q pan' Hq. simpl in Hq.
      destruct (decide (q = nextPanel w)) as [->|Hne].
      * rewrite lookup_insert_eq in Hq. simplify_eq.
        split_and!; simpl; eauto.
        eexists. split; [done|]. split; [by split|].
        simpl. by rewrite slice_dot_suffix.
      * rewrite lookup_insert_ne in Hq by done. by apply (Hwf q).
  - unfold exec at 1, onFileClosed, mbind, M_bind, bind, previews_deref.
    destruct (previews w !! uri) as [p|]; [|done]. apply Hdispose.
Qed.

Lemma run_panels_wf es : ∀ w, panels_wf w → panels_wf (run w es).
Proof.
  induction es as [|e es IH]; intros w Hwf; [done|].
  change (run w (e :: es)) with (run (step w e) es).
  by apply IH, step_panels_wf.
Qed.

Lemma initial_panels_wf c fs : panels_wf (initial c fs).
Proof. intros p pan Hp. simpl in Hp. by rewrite lookup_empty in Hp. Qed.

(** X13: in every world the extension reaches, the panel registered for a
    document identity is a preview panel (view type [cfnLintPreview],
    scripts enabled, showing the rendering of an artifact) whose title is
    [Template: ] followed by the document's file-system path, and whose one
    dispose listener has that identity as its key and the document's path
    followed by [.dot] as the file it deletes. *)
Theorem registered_panel_is_preview_of_its_document c fs es key p :
  previews (run (initial c fs) es) !! key = Some p →
  ∃ pan u,
    panels (run (initial c fs) es) !! p = Some pan
    ∧ Uri_toString u = key
    ∧ viewType pan = "cfnLintPreview"
    ∧ enableScripts pan = true
    ∧ title pan = "Template: " +:+ Uri_fsPath u
    ∧ (∃ content, html pan = getPreviewContent content)
    ∧ onDidDispose pan = [mkListener key (Uri_fsPath u +:+ ".dot") u].
Proof.
  intros Hk.
  pose proof (run_consistent es _ (consistent_initial c fs)) as (Hreg & _ & _).
  pose proof (run_panels_wf es _ (initial_panels_wf c fs)) as Hwf.
  destruct (Hreg key p Hk) as (pan & Hp & Hkeys).
  destruct (Hwf p pan Hp) as (Hv & Hs & Hh & l & Hl & [Hkey Hdot] & Ht).
  exists pan, (lst_uri l). rewrite Hl in Hkeys. simpl in Hkeys.
  injection Hkeys as Hkeys. split_and!; try done; [congruence|].
  rewrite Hl. f_equal. destruct l; simpl in *. congruence.
Qed.

(** X14: in every world the extension reaches, two document identities
    never share a panel. *)
Theorem registry_injective c fs es key1 key2 p :
  previews (run (initial c fs) es) !! key1 = Some p →
  previews (run (initial c fs) es) !! key2 = Some p →
  key1 = key2.
Proof.
  intros H1 H2.
  pose proof (run_consistent es _ (consistent_initial c fs)) as (Hreg & _ & _).
  destruct (Hreg key1 p H1) as (pan1 & Hp1 & Hk1).
  destruct (Hreg key2 p H2) as (pan2 & Hp2 & Hk2).
  congruence.
Qed.

(** X15: in every world the extension reaches, the handler of the
    preview-available notification never fails on the registry or on the
    panel: it never dereferences a missing registry entry (the [TypeError]
    of the file-closed handler) and never writes to a panel that is
    closed.  What [Uri.parse] and the read of the file may throw is not
    part of this statement. *)
Theorem preview_available_registry_is_sound c fs es file :
  outcome (onPreviewIsAvailable file) (run (initial c fs) es)
  ≠ Throw (TypeError "previews[key] is undefined")
  ∧ outcome (onPreviewIsAvailable file) (run (initial c fs) es)
    ≠ Throw WebviewDisposed.
Proof.
  set (w := run (initial c fs) es).
  pose proof (run_consistent es _ (consistent_initial c fs)) as (Hreg & _ & _).
  fold w in Hreg. unfold outcome, onPreviewIsAvailable.
  destruct (files w !! (Uri_fsPath (Uri_parse file) +:+ ".dot")) as [content|] eqn:Hf.
  2: by rewrite reload_missing.
  destruct (previews w !! Uri_toString (Uri_parse file)) as [p|] eqn:Hp.
  - destruct (Hreg _ p Hp) as (pan & Hpan & _).
    by rewrite (reload_refresh file w content p pan).
  - by rewrite (reload_create file w content).
Qed.

(** ** Further properties: how the preview events compose *)

#[local] Arguments getPreviewContent : simpl never.
#[local] Arguments slice_0_neg : simpl never.

Lemma next_panel_is_new w : consistent w → panels w !! nextPanel w = None.
Proof.
  intros (_ & _ & Hfresh). destruct (panels w !! nextPanel w) eqn:Hn; [|done].
  assert (nextPanel w < nextPanel w)%nat by (apply Hfresh; eauto). lia.
Qed.

Lemma world_eq (w1 w2 : World) :
  settings w1 = settings w2 → updates w1 = updates w2 →
  informationMessages w1 = informationMessages w2 →
  errorMessages w1 = errorMessages w2 →
  previews w1 = previews w2 → panels w1 = panels w2 →
  nextPanel w1 = nextPanel w2 → files w1 = files w2 →
  sent w1 = sent w2 → externalCalls w1 = externalCalls w2 →
  w1 = w2.
Proof. destruct w1, w2; simpl. by intros -> -> -> -> -> -> -> -> -> ->. Qed.

(** Opening a preview and closing it again, in full. *)
Lemma open_close_world file w content :
  consistent w →
  files w !! (Uri_fsPath (Uri_parse file) +:+ ".dot") = Some content →
  previews w !! Uri_toString (Uri_parse file) = None →
  run w [PreviewIsAvailable file; PanelClosedByUser (nextPanel w)]
  = set_sent (λ s, s ++ [("cfn/previewClosed", PUri (Uri_parse file))])
      (set_files (delete (Uri_fsPath (Uri_parse file) +:+ ".dot"))
         (set_nextPanel S w)).
Proof.
  intros Hc Hf Hk. pose proof (next_panel_is_new w Hc) as Hnew.
  unfold run. simpl. unfold exec, onPreviewIsAvailable.
  rewrite (reload_create file w content) by done. simpl.
  erewrite dispose_open by (simpl; apply lookup_insert_eq). simpl.
  unfold exec. rewrite (previewDisposed_artifact_present _ _ content) by done.
  cbn [snd]. apply world_eq; cbn; try done; by rewrite delete_insert_id.
Qed.

(** X16: in a world the extension reaches, a preview that is opened
    (artifact on disk, no panel yet) and then closed by the user leaves the
    registry and the open panels exactly as they were; what remains is the
    artifact deleted and one [cfn/previewClosed] sent with the document's
    [Uri]. *)
Theorem open_then_close_restores c fs es file content :
  let w := run (initial c fs) es in
  let uri := Uri_parse file in
  let dotFile := Uri_fsPath uri +:+ ".dot" in
  files w !! dotFile = Some content →
  previews w !! Uri_toString uri = None →
  let w' := run w [PreviewIsAvailable file; PanelClosedByUser (nextPanel w)] in
  previews w' = previews w
  ∧ panels w' = panels w
  ∧ files w' = delete dotFile (files w)
  ∧ sent w' = sent w ++ [("cfn/previewClosed", PUri uri)].
Proof.
  intros w uri dotFile Hf Hk w'. subst w'.
  rewrite (open_close_world file w content); [done| |done|done].
  apply run_consistent, consistent_initial.
Qed.

(** X17: a preview-available notification that arrives after the panel was
    closed opens the preview again: once the server has written the
    artifact anew, the identity is registered with a new panel, which shows
    the new artifact; the closed panel stays closed. *)
Theorem late_notification_reopens c fs es file content content' :
  let w := run (initial c fs) es in
  let uri := Uri_parse file in
  let dotFile := Uri_fsPath uri +:+ ".dot" in
  files w !! dotFile = Some content →
  previews w !! Uri_toString uri = None →
  let w' := run w [ PreviewIsAvailable file; PanelClosedByUser (nextPanel w);
                    ArtifactWritten dotFile content'; PreviewIsAvailable file ] in
  previews w' !! Uri_toString uri = Some (S (nextPanel w))
  ∧ panels w' !! nextPanel w = None
  ∧ ∃ pan, panels w' !! S (nextPanel w) = Some pan
           ∧ html pan = getPreviewContent content'.
Proof.
  intros w uri dotFile Hf Hk w'.
  assert (Hc : consistent w) by apply run_consistent, consistent_initial.
  pose proof (next_panel_is_new w Hc) as Hnew.
  assert (Hw' : w' = step (step (run w [PreviewIsAvailable file;
                                        PanelClosedByUser (nextPanel w)])
                             (ArtifactWritten dotFile content'))
                       (PreviewIsAvailable file)) by done.
  rewrite Hw', (open_close_world file w content) by done. simpl.
  unfold exec, onPreviewIsAvailable.
  rewrite (reload_create file _ content')
    by (simpl; first [done | apply lookup_insert_eq]). simpl.
  rewrite lookup_insert_eq, lookup_insert_ne by lia. split; [done|].
  split; [done|]. rewrite lookup_insert_eq. eauto.
Qed.

(** X18: in a world the extension reaches and with the artifact on disk,
    handling the same preview-available notification twice leaves the world
    as handling it once does: no second panel, the same content. *)
Theorem preview_available_twice c fs es file content :
  let w := run (initial c fs) es in
  files w !! (Uri_fsPath (Uri_parse file) +:+ ".dot") = Some content →
  exec (onPreviewIsAvailable file) (exec (onPreviewIsAvailable file) w)
  = exec (onPreviewIsAvailable file) w.
Proof.
  intros w Hf.
  assert (Hc : consistent w) by apply run_consistent, consistent_initial.
  unfold exec, onPreviewIsAvailable.
  destruct (previews w !! Uri_toString (Uri_parse file)) as [p|] eqn:Hk.
  - destruct Hc as (Hreg & _ & _). destruct (Hreg _ p Hk) as (pan & Hp & _).
    rewrite (reload_refresh file w content p pan) by done. simpl.
    erewrite (reload_refresh file _ content p)
      by (simpl; first [done | apply lookup_insert_eq]).
    simpl. unfold set_panels. simpl. by rewrite insert_insert_eq.
  - rewrite (reload_create file w content) by done. simpl.
    erewrite (reload_refresh file _ content (nextPanel w))
      by (simpl; first [done | apply lookup_insert_eq]).
    simpl. unfold set_panels. simpl. by rewrite insert_insert_eq.
Qed.

(** X19: in a world the extension reaches, a file-closed notification
    whose parameter is the key of a registry entry does what the user's
    closing that panel does: the panel is closed and the entry removed, and
    when the artifact is on disk it is deleted and [cfn/previewClosed] is
    sent to the server. *)
Theorem fileClosed_closes_like_the_user c fs es uri p :
  let w := run (initial c fs) es in
  previews w !! uri = Some p →
  let w' := exec (onFileClosed uri) w in
  outcome (onFileClosed uri) w = Ok tt
  ∧ w' = step w (PanelClosedByUser p)
  ∧ previews w' !! uri = None
  ∧ panels w' !! p = None
  ∧ ∃ u, Uri_toString u = uri
         ∧ ∀ content, files w !! (Uri_fsPath u +:+ ".dot") = Some content →
             files w' = delete (Uri_fsPath u +:+ ".dot") (files w)
             ∧ sent w' = sent w ++ [("cfn/previewClosed", PUri u)].
Proof.
  intros w Hk w'.
  assert (Hc : consistent w) by apply run_consistent, consistent_initial.
  assert (Hwf : panels_wf w) by apply run_panels_wf, initial_panels_wf.
  destruct Hc as (Hreg & _ & _). destruct (Hreg uri p Hk) as (pan & Hp & Hkeys).
  destruct (Hwf p pan Hp) as (_ & _ & _ & l & Hl & [Hkey Hdot] & _).
  rewrite Hl in Hkeys. simpl in Hkeys. injection Hkeys as Hkeys.
  assert (Hrun : onFileClosed uri w = dispose p w).
  { unfold onFileClosed, mbind, M_bind, bind, previews_deref. by rewrite Hk. }
  subst w'. unfold outcome, exec. simpl. unfold exec. rewrite Hrun.
  rewrite (dispose_open _ pan), Hl by done. simpl.
  destruct (previewDisposed_registry l (set_panels (delete p) w)) as (Hr & Hps & _).
  simpl in Hr, Hps.
  split_and!; try done.
  - rewrite Hr, Hkeys. apply lookup_delete_eq.
  - rewrite Hps. apply lookup_delete_eq.
  - exists (lst_uri l). split; [congruence|]. intros content Hf.
    rewrite <-Hdot in *. unfold exec.
    by rewrite (previewDisposed_artifact_present _ _ content).
Qed.
End Proofs.

(** ** Closed statements: the theorems at concrete worlds *)

Section Closed.
#[local] Existing Instance fileUri.

(** The merge on the user's two tags: [!Ref] is not added a second time
    and [!Custom] stays in front. *)
Lemma activate_merges_tags_witness :
  truthy (config_get "cfnLint.enableAutocomplete"
            (settings (started settings_autocomplete_on))) = true
  ∧ config_get "yaml.customTags" (settings (started settings_autocomplete_on))
    = Some (VTags ["!Ref"; "!Custom"])
  ∧ ∃ new : list string,
      cfgGlobal (settings (exec (activate (Some "yes"))
                             (started settings_autocomplete_on)))
        !! "yaml.customTags"
      = Some (VTags (["!Ref"; "!Custom"] ++ new))
      ∧ new = filter (λ x, x ∉ ["!Ref"; "!Custom"]) cloudFormationTags.
Proof.
  split; [reflexivity|]. split; [reflexivity|].
  destruct (activate_merges_tags (Some "yes") (started settings_autocomplete_on)
              ["!Ref"; "!Custom"] eq_refl eq_refl)
    as (new & Hglobal & _ & _ & _ & _ & Hnew & _).
  exists new. split; [exact Hglobal | exact Hnew].
Defined.

(** Autocomplete disabled in a world where the validator reconciliation
    would prompt: activation writes nothing and shows no prompt. *)
Lemma activate_without_autocomplete_witness :
  truthy (config_get "cfnLint.enableAutocomplete"
            (settings (started settings_autocomplete_off))) = false
  ∧ prompt_condition (started settings_autocomplete_off) = true
  ∧ updates (exec (activate (Some "yes")) (started settings_autocomplete_off)) = []
  ∧ informationMessages
      (exec (activate (Some "yes")) (started settings_autocomplete_off)) = [].
Proof.
  split; [reflexivity|]. split; [reflexivity|].
  destruct (activate_without_autocomplete (Some "yes")
              (started settings_autocomplete_off) eq_refl)
    as (_ & Hupdates & Hmessages & _).
  split; [exact Hupdates | exact Hmessages].
Defined.

(** The prompt is shown and dismissed while the toggle is in effect [true]:
    nothing is written. *)
Lemma dismissed_prompt_writes_witness :
  prompt_condition (started settings_toggle_on_in_workspace) = true
  ∧ updates (exec (yamlLangaugeServerValidation None)
               (started settings_toggle_on_in_workspace)) = [].
Proof.
  split; [reflexivity|].
  exact (proj1 (proj2 (proj2
    (dismissed_prompt_writes (started settings_toggle_on_in_workspace) eq_refl)))).
Defined.

(** C9, as stated, fails: the toggle is null in the user's settings and
    [false] in the workspace's, the prompt is shown and dismissed, and the
    generic YAML validator setting is written all the same. *)
Lemma dismissed_prompt_disables_yaml_validation :
  prompt_condition (started settings_toggle_off_in_workspace) = true
  ∧ informationMessages (exec (yamlLangaugeServerValidation None)
                           (started settings_toggle_off_in_workspace))
    = [(validationQuestion, ["yes"; "no"])]
  ∧ updates (started settings_toggle_off_in_workspace) = []
  ∧ updates (exec (yamlLangaugeServerValidation None)
               (started settings_toggle_off_in_workspace))
    = [("yaml.validate", VBool false, Global)]
  ∧ config_get "yaml.validate" (settings (started settings_toggle_off_in_workspace))
    = Some (VBool true)
  ∧ config_get "yaml.validate"
      (settings (exec (yamlLangaugeServerValidation None)
                   (started settings_toggle_off_in_workspace)))
    = Some (VBool false).
Proof. repeat split; vm_compute; reflexivity. Qed.

(** C8, as stated, fails: the toggle is set, to [true], in the workspace's
    settings, so it is not unset at every scope, and the prompt is shown
    because the user's settings spell it null. *)
Lemma prompt_although_toggle_set_in_workspace :
  workspaceValue (config_inspect "cfnLint.validateUsingJsonSchema"
                    (settings (started settings_toggle_on_in_workspace)))
  = Some (VBool true)
  ∧ ¬ prompt_condition_as_specified (started settings_toggle_on_in_workspace)
  ∧ informationMessages (exec (yamlLangaugeServerValidation (Some "yes"))
                           (started settings_toggle_on_in_workspace))
    = [(validationQuestion, ["yes"; "no"])].
Proof.
  split; [reflexivity|]. split; [|vm_compute; reflexivity].
  intros (_ & _ & [Hws|Hws] & _); vm_compute in Hws; discriminate.
Qed.

(** The other direction: with the toggle set nowhere, each layer gives
    [undefined], which is not [null], and there is no prompt. *)
Example no_prompt_when_toggle_set_nowhere :
  prompt_condition_as_specified (started settings_toggle_nowhere)
  ∧ informationMessages (exec (yamlLangaugeServerValidation (Some "yes"))
                           (started settings_toggle_nowhere)) = [].
Proof.
  split; [|vm_compute; reflexivity].
  repeat split; try (left; reflexivity).
Qed.

(** A preview-available notification for [/B.yaml], whose artifact was
    never written. *)
Lemma missing_artifact_witness :
  files (started no_settings) !! "/B.yaml.dot" = None
  ∧ errorMessages (exec (onPreviewIsAvailable "file:///B.yaml") (started no_settings))
    = [previewErrorMessage]
  ∧ previews (exec (onPreviewIsAvailable "file:///B.yaml") (started no_settings))
    = previews (started no_settings).
Proof.
  split; [reflexivity|].
  destruct (missing_artifact_reports_error "file:///B.yaml" (started no_settings) eq_refl)
    as (_ & Herrors & Hregistry & _).
  split; [exact Herrors | exact Hregistry].
Defined.

(** The first preview-available notification for [/A.yaml], with its
    artifact on disk. *)
Lemma preview_available_witness :
  files (run (initial no_settings artifact_on_disk) []) !! "/A.yaml.dot"
  = Some "digraph { a -> b }"
  ∧ length (open_panels_of "file:///A.yaml"
              (exec (onPreviewIsAvailable "file:///A.yaml")
                 (run (initial no_settings artifact_on_disk) []))) = 1%nat.
Proof.
  split; [reflexivity|].
  exact (proj1 (preview_available_creates_or_refreshes no_settings artifact_on_disk []
                  "file:///A.yaml" "digraph { a -> b }" eq_refl)).
Defined.

(** The case C3 covers, with a panel open: the artifact is gone, and the
    notification leaves the panel as it was and shows the error message. *)
Example artifact_gone_panel_left_alone :
  previews preview_open_artifact_gone !! "file:///A.yaml" = Some 0%nat
  ∧ is_Some (panels preview_open_artifact_gone !! 0%nat)
  ∧ panels (exec (onPreviewIsAvailable "file:///A.yaml") preview_open_artifact_gone)
    = panels preview_open_artifact_gone
  ∧ errorMessages (exec (onPreviewIsAvailable "file:///A.yaml")
                     preview_open_artifact_gone)
    = [previewErrorMessage].
Proof.
  split; [reflexivity|]. split; [by eexists|].
  unfold exec, onPreviewIsAvailable. rewrite reload_missing by reflexivity.
  split; reflexivity.
Qed.

(** The failing input of C4: the preview of [/A.yaml] is open, its artifact
    is no longer on disk, the user closes the panel. *)
Lemma close_without_artifact_witness :
  panels preview_open_artifact_gone !! 0%nat
  = Some (mkPanel "cfnLintPreview" "Template: /A.yaml" true
            (getPreviewContent "digraph { a -> b }")
            [mkListener "file:///A.yaml" "/A.yaml.dot" (uri_of_path "/A.yaml")])
  ∧ files preview_open_artifact_gone !! "/A.yaml.dot" = None
  ∧ sent (step preview_open_artifact_gone (PanelClosedByUser 0%nat)) = []
  ∧ previews (step preview_open_artifact_gone (PanelClosedByUser 0%nat))
      !! "file:///A.yaml" = None.
Proof.
  split; [reflexivity|]. split; [reflexivity|].
  destruct (close_without_artifact_sends_nothing 0%nat _
              (mkListener "file:///A.yaml" "/A.yaml.dot" (uri_of_path "/A.yaml"))
              preview_open_artifact_gone eq_refl eq_refl eq_refl)
    as (_ & _ & Hregistry & Hsent).
  split; [exact Hsent | exact Hregistry].
Defined.

(** The same close with the artifact on disk sends the notification. *)
Example close_with_artifact_sends_notification :
  sent (step preview_open (PanelClosedByUser 0%nat))
  = [("cfn/previewClosed", PUri (uri_of_path "/A.yaml"))]
  ∧ files (step preview_open (PanelClosedByUser 0%nat)) !! "/A.yaml.dot" = None
  ∧ previewClosed_sent (step preview_open_artifact_gone (PanelClosedByUser 0%nat)) = [].
Proof. repeat split; vm_compute; reflexivity. Qed.

(** The failing input of C5: a file-closed notification for a document
    that has no preview. *)
Lemma fileClosed_without_panel_witness :
  previews (started no_settings) !! "file:///A.yaml" = None
  ∧ onFileClosed "file:///A.yaml" (started no_settings)
    = (Throw (TypeError "previews[key] is undefined"), started no_settings).
Proof.
  split; [reflexivity|].
  exact (fileClosed_without_panel_throws "file:///A.yaml" (started no_settings) eq_refl).
Defined.

(** The scenario of the specification: the preview of [A.yaml] is shown,
    the user closes it, the server reports the document closed.  The close
    deletes the artifact and notifies the server; the file-closed handler
    then throws. *)
Example scenario_preview_close_fileClosed :
  let closed := run (started no_settings)
                  [ SidePreviewCommand (Some "/A.yaml");
                    PreviewIsAvailable "file:///A.yaml";
                    PanelClosedByUser 0%nat ] in
  sent closed = [ ("cfn/requestPreview", PString "file:///A.yaml");
                  ("cfn/previewClosed", PUri (uri_of_path "/A.yaml")) ]
  ∧ files closed !! "/A.yaml.dot" = None
  ∧ previews closed !! "file:///A.yaml" = None
  ∧ outcome (onFileClosed "file:///A.yaml") closed
    = Throw (TypeError "previews[key] is undefined").
Proof. repeat split; vm_compute; reflexivity. Qed.

(** *** The further properties at concrete worlds *)

Lemma activate_without_tag_list_witness :
  truthy (config_get "cfnLint.enableAutocomplete"
            (settings (started settings_no_tag_list))) = true
  ∧ config_get "yaml.customTags" (settings (started settings_no_tag_list)) = None
  ∧ activate (Some "yes") (started settings_no_tag_list)
    = (Throw (TypeError "currentTags is not an array"), started settings_no_tag_list).
Proof.
  split; [vm_compute; reflexivity|]. split; [vm_compute; reflexivity|].
  apply (activate_without_tag_list (Some "yes") (started settings_no_tag_list));
    [vm_compute; reflexivity | intros tags; vm_compute; discriminate].
Defined.

Lemma activate_twice_same_tags_witness :
  truthy (config_get "cfnLint.enableAutocomplete"
            (settings (started settings_autocomplete_on))) = true
  ∧ config_get "yaml.customTags" (settings (started settings_autocomplete_on))
    = Some (VTags ["!Ref"; "!Custom"])
  ∧ cfgGlobal (settings (exec (activate None)
                           (exec (activate (Some "no"))
                              (started settings_autocomplete_on))))
      !! "yaml.customTags"
    = Some (VTags (updateTags ["!Ref"; "!Custom"])).
Proof.
  split; [vm_compute; reflexivity|]. split; [vm_compute; reflexivity|].
  apply (activate_twice_same_tags (Some "no") None
           (started settings_autocomplete_on) ["!Ref"; "!Custom"]);
    vm_compute; reflexivity.
Defined.

Lemma validation_settles_witness :
  config_get "yaml.validate"
    (settings (exec (yamlLangaugeServerValidation None)
                 (started settings_toggle_off_in_workspace)))
  ≠ config_get "yaml.validate" (settings (started settings_toggle_off_in_workspace))
  ∧ yamlLangaugeServerValidation (Some "yes")
      (exec (yamlLangaugeServerValidation None)
         (started settings_toggle_off_in_workspace))
    = (Ok tt, exec (yamlLangaugeServerValidation None)
                (started settings_toggle_off_in_workspace)).
Proof.
  assert (Hchanged :
    config_get "yaml.validate"
      (settings (exec (yamlLangaugeServerValidation None)
                   (started settings_toggle_off_in_workspace)))
    ≠ config_get "yaml.validate"
        (settings (started settings_toggle_off_in_workspace)))
    by (vm_compute; discriminate).
  split; [exact Hchanged|].
  exact (validation_settles None (Some "yes")
           (started settings_toggle_off_in_workspace) Hchanged).
Defined.

Lemma answer_no_keeps_yaml_validation_witness :
  prompt_condition (started settings_toggle_off_in_workspace) = true
  ∧ is_false (config_get "cfnLint.validateUsingJsonSchema"
                (settings (started settings_toggle_off_in_workspace))) = true
  ∧ updates (exec (yamlLangaugeServerValidation (Some "no"))
               (started settings_toggle_off_in_workspace))
    = updates (started settings_toggle_off_in_workspace)
      ++ [("cfnLint.validateUsingJsonSchema", VBool true, Global)].
Proof.
  split; [vm_compute; reflexivity|]. split; [vm_compute; reflexivity|].
  apply (answer_no_keeps_yaml_validation (started settings_toggle_off_in_workspace)).
  vm_compute; reflexivity.
Defined.

Lemma answer_yes_applies_on_next_run_witness :
  truthy (config_get "yaml.validate"
            (settings (started settings_toggle_null_for_user))) = true
  ∧ updates (exec (yamlLangaugeServerValidation None)
               (exec (yamlLangaugeServerValidation (Some "yes"))
                  (started settings_toggle_null_for_user)))
    = updates (exec (yamlLangaugeServerValidation (Some "yes"))
                 (started settings_toggle_null_for_user))
      ++ [("yaml.validate", VBool false, Global)].
Proof.
  split; [vm_compute; reflexivity|].
  apply (answer_yes_applies_on_next_run None (started settings_toggle_null_for_user));
    vm_compute; reflexivity.
Defined.

Lemma extension_never_writes_files_witness :
  Forall (λ e, writes_file e = false)
    [PreviewIsAvailable "file:///A.yaml"; PanelClosedByUser 0%nat]
  ∧ files (run (started no_settings)
             [PreviewIsAvailable "file:///A.yaml"; PanelClosedByUser 0%nat])
    ⊆ files (started no_settings).
Proof.
  assert (Hes : Forall (λ e, writes_file e = false)
                  [PreviewIsAvailable "file:///A.yaml"; PanelClosedByUser 0%nat])
    by (repeat constructor).
  split; [exact Hes|].
  exact (extension_never_writes_files _ (started no_settings) Hes).
Defined.

Lemma registered_panel_witness :
  previews (run (initial no_settings artifact_on_disk)
              [PreviewIsAvailable "file:///A.yaml"]) !! "file:///A.yaml"
  = Some 0%nat
  ∧ ∃ pan u,
      panels (run (initial no_settings artifact_on_disk)
                [PreviewIsAvailable "file:///A.yaml"]) !! 0%nat = Some pan
      ∧ Uri_toString u = "file:///A.yaml"
      ∧ title pan = "Template: " +:+ Uri_fsPath u.
Proof.
  split; [vm_compute; reflexivity|].
  assert (Hk : previews (run (initial no_settings artifact_on_disk)
                            [PreviewIsAvailable "file:///A.yaml"]) !! "file:///A.yaml"
               = Some 0%nat) by (vm_compute; reflexivity).
  destruct (registered_panel_is_preview_of_its_document no_settings artifact_on_disk
              [PreviewIsAvailable "file:///A.yaml"] "file:///A.yaml" 0%nat Hk)
    as (pan & u & Hp & Hu & _ & _ & Ht & _).
  exists pan, u. by split_and!.
Defined.

Lemma registry_injective_witness :
  previews (run (initial no_settings artifact_on_disk)
              [PreviewIsAvailable "file:///A.yaml"]) !! "file:///A.yaml"
  = Some 0%nat
  ∧ "file:///A.yaml" = "file:///A.yaml".
Proof.
  split; [vm_compute; reflexivity|].
  apply (registry_injective no_settings artifact_on_disk
           [PreviewIsAvailable "file:///A.yaml"] "file:///A.yaml" "file:///A.yaml"
           0%nat); vm_compute; reflexivity.
Defined.

Lemma open_then_close_restores_witness :
  files (run (initial no_settings artifact_on_disk) [])
    !! (Uri_fsPath (Uri_parse "file:///A.yaml") +:+ ".dot")
  = Some "digraph { a -> b }"
  ∧ previews (run (initial no_settings artifact_on_disk) [])
      !! Uri_toString (Uri_parse "file:///A.yaml") = None
  ∧ sent (run (run (initial no_settings artifact_on_disk) [])
            [ PreviewIsAvailable "file:///A.yaml";
              PanelClosedByUser
                (nextPanel (run (initial no_settings artifact_on_disk) [])) ])
    = sent (run (initial no_settings artifact_on_disk) [])
      ++ [("cfn/previewClosed", PUri (Uri_parse "file:///A.yaml"))].
Proof.
  assert (Hf : files (run (initial no_settings artifact_on_disk) [])
                 !! (Uri_fsPath (Uri_parse "file:///A.yaml") +:+ ".dot")
               = Some "digraph { a -> b }") by (vm_compute; reflexivity).
  assert (Hk : previews (run (initial no_settings artifact_on_disk) [])
                 !! Uri_toString (Uri_parse "file:///A.yaml") = None)
    by (vm_compute; reflexivity).
  split; [exact Hf|]. split; [exact Hk|].
  destruct (open_then_close_restores no_settings artifact_on_disk []
              "file:///A.yaml" "digraph { a -> b }" Hf Hk) as (_ & _ & _ & Hsent).
  exact Hsent.
Defined.

Lemma late_notification_reopens_witness :
  files (run (initial no_settings artifact_on_disk) [])
    !! (Uri_fsPath (Uri_parse "file:///A.yaml") +:+ ".dot")
  = Some "digraph { a -> b }"
  ∧ previews (run (initial no_settings artifact_on_disk) [])
      !! Uri_toString (Uri_parse "file:///A.yaml") = None
  ∧ previews (run (run (initial no_settings artifact_on_disk) [])
                [ PreviewIsAvailable "file:///A.yaml";
                  PanelClosedByUser
                    (nextPanel (run (initial no_settings artifact_on_disk) []));
                  ArtifactWritten (Uri_fsPath (Uri_parse "file:///A.yaml") +:+ ".dot")
                    "digraph { b -> c }";
                  PreviewIsAvailable "file:///A.yaml" ])
      !! Uri_toString (Uri_parse "file:///A.yaml")
    = Some (S (nextPanel (run (initial no_settings artifact_on_disk) []))).
Proof.
  assert (Hf : files (run (initial no_settings artifact_on_disk) [])
                 !! (Uri_fsPath (Uri_parse "file:///A.yaml") +:+ ".dot")
               = Some "digraph { a -> b }") by (vm_compute; reflexivity).
  assert (Hk : previews (run (initial no_settings artifact_on_disk) [])
                 !! Uri_toString (Uri_parse "file:///A.yaml") = None)
    by (vm_compute; reflexivity).
  split; [exact Hf|]. split; [exact Hk|].
  destruct (late_notification_reopens no_settings artifact_on_disk []
              "file:///A.yaml" "digraph { a -> b }" "digraph { b -> c }" Hf Hk)
    as (Hreg & _).
  exact Hreg.
Defined.

Lemma preview_available_twice_witness :
  files (run (initial no_settings artifact_on_disk) [])
    !! (Uri_fsPath (Uri_parse "file:///A.yaml") +:+ ".dot")
  = Some "digraph { a -> b }"
  ∧ exec (onPreviewIsAvailable "file:///A.yaml")
      (exec (onPreviewIsAvailable "file:///A.yaml")
         (run (initial no_settings artifact_on_disk) []))
    = exec (onPreviewIsAvailable "file:///A.yaml")
        (run (initial no_settings artifact_on_disk) []).
Proof.
  assert (Hf : files (run (initial no_settings artifact_on_disk) [])
                 !! (Uri_fsPath (Uri_parse "file:///A.yaml") +:+ ".dot")
               = Some "digraph { a -> b }") by (vm_compute; reflexivity).
  split; [exact Hf|].
  exact (preview_available_twice no_settings artifact_on_disk [] "file:///A.yaml"
           "digraph { a -> b }" Hf).
Defined.

Lemma fileClosed_closes_like_the_user_witness :
  previews (run (initial no_settings artifact_on_disk)
              [PreviewIsAvailable "file:///A.yaml"]) !! "file:///A.yaml"
  = Some 0%nat
  ∧ outcome (onFileClosed "file:///A.yaml")
      (run (initial no_settings artifact_on_disk)
         [PreviewIsAvailable "file:///A.yaml"]) = Ok tt
  ∧ panels (exec (onFileClosed "file:///A.yaml")
              (run (initial no_settings artifact_on_disk)
                 [PreviewIsAvailable "file:///A.yaml"])) !! 0%nat = None.
Proof.
  split; [vm_compute; reflexivity|].
  assert (Hk : previews (run (initial no_settings artifact_on_disk)
                            [PreviewIsAvailable "file:///A.yaml"]) !! "file:///A.yaml"
               = Some 0%nat) by (vm_compute; reflexivity).
  destruct (fileClosed_closes_like_the_user no_settings artifact_on_disk
              [PreviewIsAvailable "file:///A.yaml"] "file:///A.yaml" 0%nat Hk)
    as (Hok & _ & _ & Hclosed & _).
  split; [exact Hok | exact Hclosed].
Defined.
End Closed.
